(** * Transaction controller: history trimming, fee bumps and the
      approval / speed-up / cancel life cycle.

    Shallow embedding of [TransactionController] (history trim policy,
    [processApproval], [approveTransaction], [cancelTransaction],
    [stopTransaction], [speedUpTransaction]) and of the fee helpers of
    [utils/utils], with the properties stated about them. *)

From Stdlib Require Import ZArith QArith Qround Ascii String HexString DecimalString List Lia.
From stdpp Require Import base gmap sets list strings sorting.

Open Scope string_scope.
Open Scope list_scope.
Open Scope Z_scope.

(** ** Data model (types.ts) *)

(** [enum TransactionStatus]; [dropped] is the status written by
    [setTransactionStatusDropped]. *)
Inductive TransactionStatus :=
| approved | cancelled | confirmed | dropped | failed
| rejected | signed | submitted | unapproved.

#[global] Instance TransactionStatus_eq_dec : EqDecision TransactionStatus.
Proof. solve_decision. Defined.

(** A JavaScript [Error]: the message and the optional numeric [code] that
    the RPC error constructors attach. *)
Record Error := mkError { code : option Z; message : string }.

#[global] Instance Error_eq_dec : EqDecision Error.
Proof. solve_decision. Defined.

(** [interface Transaction]: every field but [from] is optional. *)
Module Transaction.
Record t := mk {
    chainId : option Z;
    data : option string;
    from : string;
    gas : option string;
    gasPrice : option string;
    gasUsed : option string;
    nonce : option string;
    to : option string;
    value : option string;
    maxFeePerGas : option string;
    maxPriorityFeePerGas : option string;
    estimatedBaseFee : option string;
    estimateGasError : option string;
    type : option string
  }.

Definition with_nonce (v : option string) (x : t) : t :=
    mk (chainId x) (data x) (from x) (gas x) (gasPrice x) (gasUsed x) v
       (to x) (value x) (maxFeePerGas x) (maxPriorityFeePerGas x)
       (estimatedBaseFee x) (estimateGasError x) (type x).

Definition with_chainId (v : option Z) (x : t) : t :=
    mk v (data x) (from x) (gas x) (gasPrice x) (gasUsed x) (nonce x)
       (to x) (value x) (maxFeePerGas x) (maxPriorityFeePerGas x)
       (estimatedBaseFee x) (estimateGasError x) (type x).

Definition with_gasPrice (v : option string) (x : t) : t :=
    mk (chainId x) (data x) (from x) (gas x) v (gasUsed x) (nonce x)
       (to x) (value x) (maxFeePerGas x) (maxPriorityFeePerGas x)
       (estimatedBaseFee x) (estimateGasError x) (type x).

Definition with_maxFeePerGas (v : option string) (x : t) : t :=
    mk (chainId x) (data x) (from x) (gas x) (gasPrice x) (gasUsed x) (nonce x)
       (to x) (value x) v (maxPriorityFeePerGas x)
       (estimatedBaseFee x) (estimateGasError x) (type x).

Definition with_maxPriorityFeePerGas (v : option string) (x : t) : t :=
    mk (chainId x) (data x) (from x) (gas x) (gasPrice x) (gasUsed x) (nonce x)
       (to x) (value x) (maxFeePerGas x) v
       (estimatedBaseFee x) (estimateGasError x) (type x).
End Transaction.

(** [type TransactionMeta]: the fields the controller reads or writes.
    [transaction] is optional because [trimTransactionsForState] tests it;
    [hash] is the field the controller stamps after publishing. *)
Module TransactionMeta.
Record t := mk {
    id : string;
    networkID : option string;
    chainId : option string;
    origin : option string;
    rawTx : option string;
    status : TransactionStatus;
    time : Z;
    transaction : option Transaction.t;
    hash : option string;
    error : option Error
  }.

Definition with_id (v : string) (m : t) : t :=
    mk v (networkID m) (chainId m) (origin m) (rawTx m) (status m) (time m)
       (transaction m) (hash m) (error m).

Definition with_rawTx (v : option string) (m : t) : t :=
    mk (id m) (networkID m) (chainId m) (origin m) v (status m) (time m)
       (transaction m) (hash m) (error m).

Definition with_status (v : TransactionStatus) (m : t) : t :=
    mk (id m) (networkID m) (chainId m) (origin m) (rawTx m) v (time m)
       (transaction m) (hash m) (error m).

Definition with_time (v : Z) (m : t) : t :=
    mk (id m) (networkID m) (chainId m) (origin m) (rawTx m) (status m) v
       (transaction m) (hash m) (error m).

Definition with_transaction (v : option Transaction.t) (m : t) : t :=
    mk (id m) (networkID m) (chainId m) (origin m) (rawTx m) (status m) (time m)
       v (hash m) (error m).

Definition with_hash (v : option string) (m : t) : t :=
    mk (id m) (networkID m) (chainId m) (origin m) (rawTx m) (status m) (time m)
       (transaction m) v (error m).

Definition with_error (v : option Error) (m : t) : t :=
    mk (id m) (networkID m) (chainId m) (origin m) (rawTx m) (status m) (time m)
       (transaction m) (hash m) v.
End TransactionMeta.

(** JavaScript truthiness of an optional string: [undefined] and the empty
    string are falsy. *)
Definition truthy (o : option string) : bool :=
  match o with
  | Some s => negb (String.eqb s "")
  | None => false
  end.

(** A value interpolated in a template literal. *)
Definition interpolate (o : option string) : string :=
  match o with
  | Some s => s
  | None => "undefined"
  end.

(** [a ?? b] *)
Definition nullish {T : Type} (a b : option T) : option T :=
  match a with
  | Some _ => a
  | None => b
  end.

(** ** History trimming *)

(** [isFinalState] *)
Definition isFinalState (status : TransactionStatus) : bool :=
  match status with
  | rejected | confirmed | failed | cancelled => true
  | _ => false
  end.

Section Trim.
(** The array holds references to records; [view] reads the record behind a
    reference.  [toDateString] stands for [new Date(time).toDateString()],
    which depends on the time zone of the host. *)
Context {A : Type} (view : A -> TransactionMeta.t).
Context (toDateString : Z -> string) (txHistoryLimit : Z).

(** The comparator handed to [sort]: [(a, b) => (a.time > b.time ? -1 : 1)].
    It never answers 0. *)
Definition compareFn (a b : A) : Z :=
    if TransactionMeta.time (view a) >? TransactionMeta.time (view b)
    then -1 else 1.

(** [Array.prototype.sort] as V8 runs it (binary insertion inside a run,
    stable merges across runs): the comparator is always asked about a later
    element against an earlier one, and the later element moves in front of
    the earlier one exactly when the answer is negative. *)
Fixpoint insertSorted (pivot : A) (sorted : list A) : list A :=
    match sorted with
    | [] => [pivot]
    | e :: rest =>
        if compareFn pivot e <? 0 then pivot :: e :: rest
        else e :: insertSorted pivot rest
    end.

Definition sort (l : list A) : list A :=
    foldl (fun acc pivot => insertSorted pivot acc) [] l.

(** The key of a record: nonce, chain (or network) and calendar day. *)
Definition nonceNetworkKey (tx : TransactionMeta.t) (transaction : Transaction.t)
    : string :=
    interpolate (Transaction.nonce transaction) +:+ "-" +:+
    interpolate (nullish (TransactionMeta.chainId tx) (TransactionMeta.networkID tx))
    +:+ "-" +:+ toDateString (TransactionMeta.time tx).

(** The callback of [filter], with the set [nonceNetworkSet] it closes over
    threaded through the walk. *)
Fixpoint filterTxs (nonceNetworkSet : gset string) (l : list A) : list A :=
    match l with
    | [] => []
    | tx :: rest =>
        match TransactionMeta.transaction (view tx) with
        | Some transaction =>
            let key := nonceNetworkKey (view tx) transaction in
            if bool_decide (key ∈ nonceNetworkSet) then
              tx :: filterTxs nonceNetworkSet rest
            else if (Z.of_nat (size nonceNetworkSet) <? txHistoryLimit)
                    || negb (isFinalState (TransactionMeta.status (view tx)))
            then tx :: filterTxs ({[ key ]} ∪ nonceNetworkSet) rest
            else filterTxs nonceNetworkSet rest
        | None => filterTxs nonceNetworkSet rest
        end
    end.

(** [trimTransactionsForState] *)
Definition trimTransactionsForState (transactions : list A) : list A :=
    reverse (filterTxs ∅ (sort transactions)).

(** [newer a b]: [a] is strictly more recent than [b]. *)
Definition newer (a b : A) : Prop :=
    TransactionMeta.time (view b) < TransactionMeta.time (view a).
End Trim.

(** ** Fee helpers (utils/utils.ts) *)

(** Multiplier used to determine a transaction's increased gas fee during
    cancellation: [CANCEL_RATE = 1.5]. *)
Definition CANCEL_RATE : Q := 3 # 2.

(** Multiplier used to determine a transaction's increased gas fee during
    speed up: [SPEED_UP_RATE = 1.1]. *)
Definition SPEED_UP_RATE : Q := 11 # 10.

(** Decimal rendering of a number inside a template literal. *)
Definition decimal (n : N) : string := NilZero.string_of_uint (N.to_uint n).

Definition isHexDigit (c : ascii) : bool :=
  match HexString.ascii_to_digit c with
  | Some _ => true
  | None => false
  end.

(** Modelled from the spec: [isHexString] is not among the sources; a
    hex-numeric value is a base-16 string with the explicit prefix [0x]. *)
Definition isHexString (s : string) : bool :=
  match s with
  | String "0" (String "x" digits) => forallb isHexDigit (list_ascii_of_string digits)
  | _ => false
  end.

(** Modelled from the spec: [convertHexToDecimal] is not among the sources;
    it reads a prefixed base-16 string as a number, an absent value as 0
    (its unit tests: ['0x50fd51da'] is 1358778842). *)
Definition convertHexToDecimal (value : option string) : N :=
  match value with
  | Some s => HexString.to_N s
  | None => 0%N
  end.

(** Modelled from the spec: [getIncreasedPriceHex] is not among the sources.
    The product of the value and the rate is cut to its integer part and
    printed in base 16 with the prefix, as its unit test fixes:
    [getIncreasedPriceHex(1358778842, 1.1)] is ['0x5916a6d6']. *)
Definition getIncreasedPriceHex (value : N) (rate : Q) : string :=
  HexString.of_N (Z.to_N (Qfloor (inject_Z (Z.of_N value) * rate))).

(** Modelled from the spec: [getIncreasedPriceFromExisting] is not among the
    sources; it bumps a value given in base 16 (unit test:
    [getIncreasedPriceFromExisting('0x50fd51da', 1.1)] is ['0x5916a6d6']). *)
Definition getIncreasedPriceFromExisting (value : option string) (rate : Q)
  : string :=
  getIncreasedPriceHex (convertHexToDecimal value) rate.

(** The outcome of running a piece of code: it returns or it throws. *)
Inductive Completion (T : Type) :=
| Normal (result : T)
| Thrown (error : Error).
Arguments Normal {T} result.
Arguments Thrown {T} error.

(** Modelled from the spec: [validateMinimumIncrease] is not among the
    sources; a proposed value that meets or exceeds the minimum is returned,
    a lower one is a validation error (unit tests: ['0x50fd51da'] against
    ['0x5916a6d6'] throws "The proposed value: 1358778842 should meet or
    exceed the minimum value: 1494656726"; equal values do not throw). *)
Definition validateMinimumIncrease (proposed min : string) : Completion string :=
  let proposedDecimal := convertHexToDecimal (Some proposed) in
  let minDecimal := convertHexToDecimal (Some min) in
  if (minDecimal <=? proposedDecimal)%N then Normal proposed
  else Thrown (mkError None
    ("The proposed value: " +:+ decimal proposedDecimal +:+
     " should meet or exceed the minimum value: " +:+ decimal minDecimal)).

(** The error of [validateMinimumIncrease]. *)
Definition isMinimumIncreaseError (e : Error) : Prop :=
  exists proposed min : N,
    (proposed < min)%N /\
    e = mkError None
          ("The proposed value: " +:+ decimal proposed +:+
           " should meet or exceed the minimum value: " +:+ decimal min).

(** The optional [gasValues] argument of [stopTransaction] and
    [speedUpTransaction]: [GasPriceValue | FeeMarketEIP1559Values], an object
    that carries some of the three keys. *)
Module GasValues.
Record t := mk {
  gasPrice : option string;
  maxFeePerGas : option string;
  maxPriorityFeePerGas : option string
}.
End GasValues.

Definition expectedHexString (key value : string) : Error :=
  mkError None ("expected hex string for " +:+ key +:+ " but received: " +:+ value).

Definition validateGasValue (key : string) (value : option string)
  : Completion unit :=
  match value with
  | Some v => if isHexString v then Normal tt else Thrown (expectedHexString key v)
  | None => Normal tt
  end.

(** Modelled from the spec: [validateGasValues] is not among the sources;
    every value carried by the object must be hex-numeric, the first that is
    not is reported (unit test: "expected hex string for maxFeePerGas but
    received: lol").  The keys are visited as [gasPrice], [maxFeePerGas],
    [maxPriorityFeePerGas]. *)
Definition validateGasValues (gasValues : GasValues.t) : Completion unit :=
  match validateGasValue "gasPrice" (GasValues.gasPrice gasValues) with
  | Thrown e => Thrown e
  | Normal _ =>
      match validateGasValue "maxFeePerGas" (GasValues.maxFeePerGas gasValues) with
      | Thrown e => Thrown e
      | Normal _ =>
          validateGasValue "maxPriorityFeePerGas"
            (GasValues.maxPriorityFeePerGas gasValues)
      end
  end.

(** Modelled from the spec: [isGasPriceValue] is not among the sources; it
    tells whether the object carries [gasPrice] (unit test: true on
    [{gasPrice}], false on the fee-market shape). *)
Definition isGasPriceValue (gasValues : option GasValues.t) : bool :=
  match gasValues with
  | Some g => bool_decide (is_Some (GasValues.gasPrice g))
  | None => false
  end.

(** Modelled from the spec: [isFeeMarketEIP1559Values] is not among the
    sources; it tells whether the object carries a fee-market key (unit test:
    true on [{maxFeePerGas, maxPriorityFeePerGas}], false on [{gasPrice}]). *)
Definition isFeeMarketEIP1559Values (gasValues : option GasValues.t) : bool :=
  match gasValues with
  | Some g => bool_decide (is_Some (GasValues.maxFeePerGas g))
              || bool_decide (is_Some (GasValues.maxPriorityFeePerGas g))
  | None => false
  end.

(** Modelled from the spec: [isEIP1559Transaction] is not among the sources;
    a transaction is fee-market when it carries both [maxFeePerGas] and
    [maxPriorityFeePerGas] (unit test: true with both, false with neither). *)
Definition isEIP1559Transaction (transaction : Transaction.t) : bool :=
  bool_decide (is_Some (Transaction.maxFeePerGas transaction))
  && bool_decide (is_Some (Transaction.maxPriorityFeePerGas transaction)).

(** ** The controller and its collaborators *)

(** The data handed to [TransactionFactory.fromTxData]: transaction fields,
    the [gasLimit] copied from [gas] and, for fee-market transactions, [type: 2]
    written over the [type] field. *)
Record TxData := mkTxData {
  txFields : Transaction.t;
  gasLimit : option string;
  typeOverride : option Z
}.

(** What the approval service answers: [{ resultCallbacks? }]. *)
Record AddResult := mkAddResult { resultCallbacks : bool }.

(** Calls that leave the controller, in the order they are made. *)
Inductive Effect :=
| MutexAcquire
| MutexRelease
| NonceLockAcquire (address : string) (nextNonce : N)
| NonceLockRelease (address : string)
| Sign (unsignedEthTx : TxData) (from : string)
| SendRawTransaction (rawTx : string)
| HubEmit (eventName : string) (payload : TransactionMeta.t)
| AddRequest (approvalId origin : string)
| ResultCallbackSuccess
| ResultCallbackError (error : option Error).

(** Records are JavaScript objects: a reference is an address in [objects],
    and the same object can be reached from the state array, from a local
    variable of a running method and from its caller. *)
Abbreviation ref := nat.

Record Controller := mkController {
  objects : list TransactionMeta.t;
  transactions : list ref;          (* this.state.transactions *)
  effects : list Effect             (* oldest first *)
}.

#[global] Instance TransactionMeta_inhabited : Inhabited TransactionMeta.t :=
  populate (TransactionMeta.mk "" None None None None unapproved 0 None None None).

(** The collaborators and the configuration of one controller, and the host
    functions the code calls.  Asynchronous collaborators are given by what
    they settle to. *)
Record Env := mkEnv {
  (* this.config.txHistoryLimit *)
  txHistoryLimit : Z;
  (* this.sign; the signed transaction is given by
     [bufferToHex(signedTx.serialize())] *)
  sign : option (TxData -> string -> Completion string);
  (* this.getNetworkState().providerConfig.chainId *)
  currentChainId : option string;
  (* query(this.ethQuery, 'sendRawTransaction', [rawTx]) *)
  sendRawTransaction : string -> Completion string;
  (* this.nonceTracker.getNonceLock(from), by its nextNonce *)
  getNonceLock : string -> Completion N;
  (* TransactionFactory.fromTxData with the common configuration: the error
     it throws, if any *)
  fromTxData : TxData -> option Error;
  (* ApprovalController:addRequest *)
  addRequest : TransactionMeta.t -> Completion AddResult;
  (* what the rest of the system does to the controller while the approval
     request is pending *)
  whilePending : Controller -> Controller;
  (* normalizeTransaction and validateTransaction of utils *)
  normalizeTransaction : Transaction.t -> Transaction.t;
  validateTransaction : Transaction.t -> option Error;
  (* uuid's random(), Date.now(), new Date(time).toDateString(), parseInt,
     JSON.stringify *)
  random : string;
  now : Z;
  toDateString : Z -> string;
  parseInt : string -> Z;
  stringify : TransactionMeta.t + string -> string
}.

(** ** Sequential code with exceptions over a mutable state *)

Definition Op (S T : Type) : Type := S -> Completion T * S.

Definition ret {S T} (x : T) : Op S T := fun s => (Normal x, s).

Definition throw {S T} (e : Error) : Op S T := fun s => (Thrown e, s).

Definition bind {S T U} (m : Op S T) (k : T -> Op S U) : Op S U :=
  fun s =>
    match m s with
    | (Normal x, s') => k x s'
    | (Thrown e, s') => (Thrown e, s')
    end.

Declare Scope op_scope.
Delimit Scope op_scope with op.
Bind Scope op_scope with Op.

Notation "'let*' x ':=' m 'in' k" := (bind m (fun x => k))
  (at level 10, x name, m at level 100, k at level 200) : op_scope.
Notation "m ';;' k" := (bind m (fun _ => k))
  (at level 100, k at level 200, right associativity) : op_scope.

Open Scope op_scope.

(** [try { body } catch (error) { handler }] *)
Definition tryCatch {S T} (body : Op S T) (handler : Error -> Op S T) : Op S T :=
  fun s =>
    match body s with
    | (Normal x, s') => (Normal x, s')
    | (Thrown e, s') => handler e s'
    end.

(** [try { body } finally { finalizer }] *)
Definition tryFinally {S T} (body : Op S T) (finalizer : Op S unit) : Op S T :=
  fun s =>
    match body s with
    | (completion, s') =>
        match finalizer s' with
        | (Normal _, s'') => (completion, s'')
        | (Thrown e, s'') => (Thrown e, s'')
        end
    end.

(** A [let] variable of a method that its [try] block assigns and the code
    after it reads: the block runs over the variable and the controller. *)
Definition lift {L S T} (m : Op S T) : Op (L * S) T :=
  fun '(l, s) => match m s with (completion, s') => (completion, (l, s')) end.

Definition getLocal {L S} : Op (L * S) L := fun '(l, s) => (Normal l, (l, s)).

Definition setLocal {L S} (l : L) : Op (L * S) unit :=
  fun '(_, s) => (Normal tt, (l, s)).

Definition withLocal {L S T} (init : L) (m : Op (L * S) T) : Op S T :=
  fun s => match m (init, s) with (completion, (_, s')) => (completion, s') end.

Definition liftCompletion {S T} (c : Completion T) : Op S T :=
  fun s => (c, s).

(** [TypeError]: a property read on [undefined]. *)
Definition typeError : Error :=
  mkError None "Cannot read properties of undefined".

(** [errorCodes.provider.userRejectedRequest],
    [ethErrors.provider.userRejectedRequest] and [ethErrors.rpc.internal]. *)
Definition userRejectedRequestCode : Z := 4001.

Definition userRejectedRequest (message : string) : Error :=
  mkError (Some userRejectedRequestCode) message.

Definition internal (message : string) : Error :=
  mkError (Some (-32603)) message.

(** Access to the objects and to the state array. *)
Definition deref (r : ref) : Op Controller TransactionMeta.t :=
  fun c => (Normal (objects c !!! r), c).

Definition alloc (m : TransactionMeta.t) : Op Controller ref :=
  fun c => (Normal (length (objects c)),
            mkController (objects c ++ [m]) (transactions c) (effects c)).

(** Assignment to fields of an object, in place. *)
Definition mutate (r : ref) (f : TransactionMeta.t -> TransactionMeta.t)
  : Op Controller unit :=
  fun c => (Normal tt,
            mkController (alter f r (objects c)) (transactions c) (effects c)).

Definition getTransactions : Op Controller (list ref) :=
  fun c => (Normal (transactions c), c).

(** [this.update({ transactions })] *)
Definition update (txs : list ref) : Op Controller unit :=
  fun c => (Normal tt, mkController (objects c) txs (effects c)).

Definition effect (e : Effect) : Op Controller unit :=
  fun c => (Normal tt, mkController (objects c) (transactions c) (effects c ++ [e])).

(** [this.hub.emit(eventName, transactionMeta)]: listeners run at once and
    see the object as it is now. *)
Definition emit (eventName : string) (r : ref) : Op Controller unit :=
  let* meta := deref r in
  effect (HubEmit eventName meta).

(** [transactions.find(({ id }) => id === transactionID)] and
    [findIndex] on the objects of a controller. *)
Definition findIndex (objs : list TransactionMeta.t) (txs : list ref)
    (transactionID : string) : option (nat * ref) :=
  list_find (fun r => TransactionMeta.id (objs !!! r) = transactionID) txs.

Definition find (transactionID : string) : Op Controller (option ref) :=
  fun c =>
    (Normal (snd <$> findIndex (objects c) (transactions c) transactionID), c).

(** [isLocalFinalState] *)
Definition isLocalFinalState (status : TransactionStatus) : bool :=
  match status with
  | cancelled | confirmed | failed | rejected | submitted => true
  | _ => false
  end.

(** ** The methods of [TransactionController] *)

Section Methods.
Context (env : Env).

(** [this.trimTransactionsForState(transactions)] on an array of references
    into [objs]. *)
Definition trimState (objs : list TransactionMeta.t) (txs : list ref) : list ref :=
  trimTransactionsForState (fun r => objs !!! r)
    (toDateString env) (txHistoryLimit env) txs.

(** [this.update({ transactions: this.trimTransactionsForState(transactions) })] *)
Definition updateTrimmed (txs : list ref) : Op Controller unit :=
  fun c => update (trimState (objects c) txs) c.

(** [updateTransaction]: the object is normalized in place and validated,
    takes the place of the first record with its id, and the array is
    trimmed.  An index of -1 assigns no element of the array. *)
Definition updateTransaction (transactionMeta : ref) : Op Controller unit :=
  let* txs := getTransactions in
  let* meta := deref transactionMeta in
  match TransactionMeta.transaction meta with
  | None => throw typeError
  | Some transaction =>
      let normalized := normalizeTransaction env transaction in
      mutate transactionMeta (TransactionMeta.with_transaction (Some normalized));;
      match validateTransaction env normalized with
      | Some error => throw error
      | None =>
          fun c =>
            let txs' :=
              match findIndex (objects c) txs (TransactionMeta.id meta) with
              | Some (index, _) => <[index := transactionMeta]> txs
              | None => txs
              end in
            updateTrimmed txs' c
      end
  end.

(** [failTransaction]: a copy of the record with the error and the status
    [failed] replaces it in the state, and [<id>:finished] is emitted. *)
Definition failTransaction (transactionMeta : ref) (error : Error)
  : Op Controller unit :=
  let* meta := deref transactionMeta in
  let* newTransactionMeta :=
    alloc (TransactionMeta.with_status failed
             (TransactionMeta.with_error (Some error) meta)) in
  updateTransaction newTransactionMeta;;
  emit (TransactionMeta.id meta +:+ ":finished") newTransactionMeta.

(** [prepareUnsignedEthTx] *)
Definition prepareUnsignedEthTx (txParams : TxData) : Op Controller TxData :=
  match fromTxData env txParams with
  | Some error => throw error
  | None => ret txParams
  end.

(** [await this.sign(unsignedEthTx, from)] followed by
    [bufferToHex(signedTx.serialize())] *)
Definition callSign (signer : TxData -> string -> Completion string)
    (unsignedEthTx : TxData) (from : string) : Op Controller string :=
  effect (Sign unsignedEthTx from);;
  liftCompletion (signer unsignedEthTx from).

(** [query(this.ethQuery, 'sendRawTransaction', [rawTx])], also
    [publishTransaction] *)
Definition publishTransaction (rawTx : string) : Op Controller string :=
  effect (SendRawTransaction rawTx);;
  liftCompletion (sendRawTransaction env rawTx).

(** [await this.nonceTracker.getNonceLock(from)]: the lock is held once the
    call has returned. *)
Definition acquireNonceLock (from : string) : Op Controller N :=
  let* nextNonce := liftCompletion (getNonceLock env from) in
  effect (NonceLockAcquire from nextNonce);;
  ret nextNonce.

(** Assignment to a field of [transactionMeta.transaction], in place. *)
Definition mutateTransaction (r : ref) (f : Transaction.t -> Transaction.t)
  : Op Controller unit :=
  mutate r (fun meta =>
    TransactionMeta.with_transaction (f <$> TransactionMeta.transaction meta) meta).

(** The end of the [try] block of [approveTransaction]: the unsigned
    transaction is built and signed, the record is marked [signed] and
    stored, the raw transaction is stored and published, the hash is
    stamped, the record is marked [submitted] and stored, and
    [<id>:finished] is emitted. *)
Definition signAndPublish (signer : TxData -> string -> Completion string)
    (transactionMeta : ref) (txParams : TxData) (from : string)
    (finished : string) : Op Controller unit :=
  let* unsignedEthTx := prepareUnsignedEthTx txParams in
  let* rawTx := callSign signer unsignedEthTx from in
  mutate transactionMeta (TransactionMeta.with_status signed);;
  updateTransaction transactionMeta;;
  mutate transactionMeta (TransactionMeta.with_rawTx (Some rawTx));;
  updateTransaction transactionMeta;;
  let* hash := publishTransaction rawTx in
  mutate transactionMeta (TransactionMeta.with_hash (Some hash));;
  mutate transactionMeta (TransactionMeta.with_status submitted);;
  updateTransaction transactionMeta;;
  emit finished transactionMeta.

(** [approveTransaction] *)
Definition approveTransaction (transactionID : string) : Op Controller unit :=
  let* txs := getTransactions in
  effect MutexAcquire;;
  let* found := (fun c => (Normal (findIndex (objects c) txs transactionID), c)) in
  match found with
  | None => throw typeError
  | Some (_, transactionMeta) =>
  let* meta := deref transactionMeta in
  match TransactionMeta.transaction meta with
  | None => throw typeError
  | Some transaction =>
  let nonce := Transaction.nonce transaction in
  let from := Transaction.from transaction in
  withLocal (None : option string)
    (tryFinally
      (tryCatch
        (match sign env with
         | None =>
             lift (effect MutexRelease;;
                   failTransaction transactionMeta
                     (mkError None "No sign method defined."))
         | Some signer =>
           if negb (truthy (currentChainId env)) then
             lift (effect MutexRelease;;
                   failTransaction transactionMeta
                     (mkError None "No chainId defined."))
           else
             let chainId := parseInt env (default "" (currentChainId env)) in
             let* nonceToUse :=
               (if truthy nonce then ret nonce
                else
                  let* nextNonce := lift (acquireNonceLock from) in
                  setLocal (Some from);;
                  ret (Some (HexString.of_N nextNonce))) in
             lift (mutate transactionMeta (TransactionMeta.with_status approved));;
             lift (mutateTransaction transactionMeta (Transaction.with_nonce nonceToUse));;
             lift (mutateTransaction transactionMeta
                     (Transaction.with_chainId (Some chainId)));;
             let stamped :=
               Transaction.with_chainId (Some chainId)
                 (Transaction.with_nonce nonceToUse transaction) in
             let baseTxParams :=
               mkTxData stamped (Transaction.gas stamped) None in
             let isEIP1559 := isEIP1559Transaction stamped in
             let txParams :=
               if isEIP1559
               then mkTxData stamped (Transaction.gas stamped) (Some 2)
               else baseTxParams in
             lift (signAndPublish signer transactionMeta txParams from
                     (TransactionMeta.id meta +:+ ":finished"))
         end)
        (fun error => lift (failTransaction transactionMeta error)))
      (let* nonceLock := getLocal in
       match nonceLock with
       | Some address => lift (effect (NonceLockRelease address))
       | None => ret tt
       end;;
       lift (effect MutexRelease)))
  end
  end.
(** [cancelTransaction]: the record is marked [rejected] in place,
    [<id>:finished] is emitted and the record leaves the state. *)
Definition cancelTransaction (transactionID : string) : Op Controller unit :=
  let* found := find transactionID in
  match found with
  | None => ret tt
  | Some transactionMeta =>
      mutate transactionMeta (TransactionMeta.with_status rejected);;
      let* meta := deref transactionMeta in
      emit (TransactionMeta.id meta +:+ ":finished") transactionMeta;;
      fun c =>
        updateTrimmed
          (List.filter
             (fun r => negb (bool_decide
                (TransactionMeta.id (objects c !!! r) = transactionID)))
             (transactions c)) c
  end.

(** [getTransaction] *)
Definition getTransaction (transactionID : string) : Op Controller (option ref) :=
  find transactionID.

(** [isTransactionCompleted] *)
Definition isTransactionCompleted (transactionid : string)
  : Op Controller (option ref * bool) :=
  let* transaction := getTransaction transactionid in
  match transaction with
  | None => ret (None, false)
  | Some r =>
      let* meta := deref r in
      ret (Some r, isLocalFinalState (TransactionMeta.status meta))
  end.

(** [requestApproval]: the request is sent, the rest of the system runs
    while it is pending, and the request settles. *)
Definition requestApproval (txMeta : ref) : Op Controller AddResult :=
  let* meta := deref txMeta in
  let origin := TransactionMeta.origin meta in
  effect (AddRequest (TransactionMeta.id meta)
            (if truthy origin then interpolate origin else "metamask"));;
  (fun c => (Normal tt, whilePending env c));;
  liftCompletion (addRequest env meta).

(** [resultCallbacks?.error(e)] and [resultCallbacks?.success()] *)
Definition callbackError (callbacks : bool) (e : option Error) : Op Controller unit :=
  if callbacks then effect (ResultCallbackError e) else ret tt.

Definition callbackSuccess (callbacks : bool) : Op Controller unit :=
  if callbacks then effect ResultCallbackSuccess else ret tt.

(** The [try] block of [processApproval]; the local [resultCallbacks] is
    assigned once the request has been accepted. *)
Definition approvalTry (transactionMeta : ref) (transactionId : string)
  : Op (bool * Controller) unit :=
  let* acceptResult := lift (requestApproval transactionMeta) in
  setLocal (resultCallbacks acceptResult);;
  let* completed := lift (isTransactionCompleted transactionId) in
  match completed with
  | (Some _, false) => lift (approveTransaction transactionId)
  | _ => ret tt
  end.

(** The [catch] block of [processApproval]. *)
Definition approvalCatch (transactionId : string) (error : Error)
  : Op (bool * Controller) unit :=
  let* completed := lift (isTransactionCompleted transactionId) in
  match completed with
  | (Some meta, false) =>
      if bool_decide (code error = Some userRejectedRequestCode) then
        lift (cancelTransaction transactionId);;
        throw (userRejectedRequest "User rejected the transaction")
      else lift (failTransaction meta error)
  | _ => ret tt
  end.

(** The [switch] on the final status that ends [processApproval]. *)
Definition approvalSwitch (transactionId : string)
  : Op (bool * Controller) (option string) :=
  let* finalMeta := lift (getTransaction transactionId) in
  let* callbacks := getLocal in
  let* final :=
    match finalMeta with
    | Some r => let* m := lift (deref r) in ret (Some m)
    | None => ret None
    end in
  match final with
  | Some m =>
      match TransactionMeta.status m with
      | failed =>
          lift (callbackError callbacks (TransactionMeta.error m));;
          match TransactionMeta.error m with
          | Some e => throw (internal (message e))
          | None => throw typeError
          end
      | cancelled =>
          let cancelError := internal "User cancelled the transaction" in
          lift (callbackError callbacks (Some cancelError));;
          throw cancelError
      | submitted =>
          lift (callbackSuccess callbacks);;
          ret (TransactionMeta.hash m)
      | _ =>
          let internalError :=
            internal ("MetaMask Tx Signature: Unknown problem: "
                      +:+ stringify env (inl m)) in
          lift (callbackError callbacks (Some internalError));;
          throw internalError
      end
  | None =>
      let internalError :=
        internal ("MetaMask Tx Signature: Unknown problem: "
                  +:+ stringify env (inr transactionId)) in
      lift (callbackError callbacks (Some internalError));;
      throw internalError
  end.

(** [processApproval]: the promise that [addTransaction] hands to its caller
    as [result].  It resolves with the value returned, it rejects with the
    error thrown. *)
Definition processApproval (transactionMeta : ref)
  : Op Controller (option string) :=
  let* meta0 := deref transactionMeta in
  let transactionId := TransactionMeta.id meta0 in
  withLocal false
    (tryCatch (approvalTry transactionMeta transactionId)
       (approvalCatch transactionId);;
     approvalSwitch transactionId).

(** [(proposed && validateMinimumIncrease(proposed, min)) || fallback] *)
Definition validatedOr (proposed : option string) (min : string)
    (fallback : option string) : Completion (option string) :=
  if truthy proposed then
    match validateMinimumIncrease (interpolate proposed) min with
    | Normal v => Normal (if truthy (Some v) then Some v else fallback)
    | Thrown e => Thrown e
    end
  else Normal fallback.

(** [existing && min] *)
Definition andThen (existing : option string) (min : string) : option string :=
  if truthy existing then Some min else None.

(** The fees of a replacement, as [stopTransaction] and [speedUpTransaction]
    both compute them: the legacy price, then the two fee-market values, each
    the validated value of the caller or else the bumped existing one. *)
Record ReplacementFees := mkReplacementFees {
  newGasPrice : option string;
  newMaxFeePerGas : option string;
  newMaxPriorityFeePerGas : option string
}.

Definition replacementFees (rate : Q) (gasValues : option GasValues.t)
    (transaction : Transaction.t) : Completion ReplacementFees :=
  (* gasPrice (legacy non EIP1559) *)
  let minGasPrice :=
    getIncreasedPriceFromExisting (Transaction.gasPrice transaction) rate in
  let gasPriceFromValues :=
    if isGasPriceValue gasValues
    then gasValues ≫= GasValues.gasPrice else None in
  match validatedOr gasPriceFromValues minGasPrice (Some minGasPrice) with
  | Thrown e => Thrown e
  | Normal newGasPrice =>
  (* maxFeePerGas (EIP1559) *)
  let existingMaxFeePerGas := Transaction.maxFeePerGas transaction in
  let minMaxFeePerGas := getIncreasedPriceFromExisting existingMaxFeePerGas rate in
  let maxFeePerGasValues :=
    if isFeeMarketEIP1559Values gasValues
    then gasValues ≫= GasValues.maxFeePerGas else None in
  match validatedOr maxFeePerGasValues minMaxFeePerGas
          (andThen existingMaxFeePerGas minMaxFeePerGas) with
  | Thrown e => Thrown e
  | Normal newMaxFeePerGas =>
  (* maxPriorityFeePerGas (EIP1559) *)
  let existingMaxPriorityFeePerGas := Transaction.maxPriorityFeePerGas transaction in
  let minMaxPriorityFeePerGas :=
    getIncreasedPriceFromExisting existingMaxPriorityFeePerGas rate in
  let maxPriorityFeePerGasValues :=
    if isFeeMarketEIP1559Values gasValues
    then gasValues ≫= GasValues.maxPriorityFeePerGas else None in
  match validatedOr maxPriorityFeePerGasValues minMaxPriorityFeePerGas
          (andThen existingMaxPriorityFeePerGas minMaxPriorityFeePerGas) with
  | Thrown e => Thrown e
  | Normal newMaxPriorityFeePerGas =>
      Normal (mkReplacementFees newGasPrice newMaxFeePerGas newMaxPriorityFeePerGas)
  end
  end
  end.

(** [newMaxFeePerGas && newMaxPriorityFeePerGas] *)
Definition isFeeMarketReplacement (fees : ReplacementFees) : bool :=
  truthy (newMaxFeePerGas fees) && truthy (newMaxPriorityFeePerGas fees).

(** [stopTransaction] *)
Definition stopTransaction (transactionID : string)
    (gasValues : option GasValues.t) : Op Controller unit :=
  match gasValues with
  | Some g => liftCompletion (validateGasValues g)
  | None => ret tt
  end;;
  let* found := find transactionID in
  match found with
  | None => ret tt
  | Some transactionMeta =>
  match sign env with
  | None => throw (mkError None "No sign method defined.")
  | Some signer =>
  let* meta := deref transactionMeta in
  match TransactionMeta.transaction meta with
  | None => throw typeError
  | Some transaction =>
  let* fees := liftCompletion (replacementFees CANCEL_RATE gasValues transaction) in
  let from := Transaction.from transaction in
  let txParams :=
    if isFeeMarketReplacement fees then
      mkTxData
        (Transaction.mk None None from None None None
           (Transaction.nonce transaction) (Some from) (Some "0x0")
           (newMaxFeePerGas fees) (newMaxPriorityFeePerGas fees) None None None)
        (Transaction.gas transaction) (Some 2)
    else
      mkTxData
        (Transaction.mk None None from None (newGasPrice fees) None
           (Transaction.nonce transaction) (Some from) (Some "0x0")
           None None None None None)
        (Transaction.gas transaction) None in
  let* unsignedEthTx := prepareUnsignedEthTx txParams in
  let* rawTx := callSign signer unsignedEthTx from in
  publishTransaction rawTx;;
  mutate transactionMeta (TransactionMeta.with_status cancelled);;
  emit (TransactionMeta.id meta +:+ ":finished") transactionMeta
  end
  end
  end.

(** [speedUpTransaction] *)
Definition speedUpTransaction (transactionID : string)
    (gasValues : option GasValues.t) : Op Controller unit :=
  match gasValues with
  | Some g => liftCompletion (validateGasValues g)
  | None => ret tt
  end;;
  let* found := find transactionID in
  match found with
  | None => ret tt
  | Some transactionMeta =>
  match sign env with
  | None => throw (mkError None "No sign method defined.")
  | Some signer =>
  let* txs := getTransactions in
  let* meta := deref transactionMeta in
  match TransactionMeta.transaction meta with
  | None => throw typeError
  | Some transaction =>
  let* fees := liftCompletion (replacementFees SPEED_UP_RATE gasValues transaction) in
  let from := Transaction.from transaction in
  let txParams :=
    if isFeeMarketReplacement fees then
      mkTxData
        (Transaction.with_maxPriorityFeePerGas (newMaxPriorityFeePerGas fees)
           (Transaction.with_maxFeePerGas (newMaxFeePerGas fees) transaction))
        (Transaction.gas transaction) (Some 2)
    else
      mkTxData (Transaction.with_gasPrice (newGasPrice fees) transaction)
        (Transaction.gas transaction) None in
  let* unsignedEthTx := prepareUnsignedEthTx txParams in
  let* rawTx := callSign signer unsignedEthTx from in
  let* hash := publishTransaction rawTx in
  let baseTransactionMeta :=
    TransactionMeta.with_hash (Some hash)
      (TransactionMeta.with_time (now env)
         (TransactionMeta.with_id (random env) meta)) in
  let* newTransactionMeta :=
    alloc
      (if isFeeMarketReplacement fees then
         TransactionMeta.with_transaction
           (Some (Transaction.with_maxPriorityFeePerGas (newMaxPriorityFeePerGas fees)
                    (Transaction.with_maxFeePerGas (newMaxFeePerGas fees) transaction)))
           baseTransactionMeta
       else
         TransactionMeta.with_transaction
           (Some (Transaction.with_gasPrice (newGasPrice fees) transaction))
           baseTransactionMeta) in
  updateTrimmed (txs ++ [newTransactionMeta]);;
  emit (TransactionMeta.id meta +:+ ":speedup") newTransactionMeta
  end
  end
  end.
End Methods.

(** ** Sample data for the worked cases *)

(** A host in UTC: the calendar day of a time in milliseconds, written as the
    count of days since the epoch. *)
Definition utcDateString (time : Z) : string :=
  "day " +:+ NilZero.string_of_int (Z.to_int (time / 86400000)).

Definition sampleTransaction (nonce : string) : Transaction.t :=
  Transaction.mk None None "0xabc" (Some "0x5208") (Some "0x50fd51da") None
    (Some nonce) (Some "0xdef") (Some "0x0") None None None None None.

Definition sampleMeta (id : string) (status : TransactionStatus) (time : Z)
    (nonce : string) : TransactionMeta.t :=
  TransactionMeta.mk id None (Some "0x1") None None status time
    (Some (sampleTransaction nonce)) None None.

(** [trimTransactionsForState] on an array of records given by value. *)
Definition trimRecords (limit : Z) (l : list TransactionMeta.t)
  : list TransactionMeta.t :=
  trimTransactionsForState (fun m => m) utcDateString limit l.

(** The numeric value of a bumped fee. *)
Definition bump (value : N) (rate : Q) : Z :=
  Z.of_N (convertHexToDecimal (Some (getIncreasedPriceHex value rate))).

(** A caller's value for one of the three fee keys lies below the minimum
    computed from the existing transaction. *)
Definition below (proposed : option string) (existing : option string) (rate : Q)
  : Prop :=
  exists p, proposed = Some p /\
    (convertHexToDecimal (Some p)
     < convertHexToDecimal (Some (getIncreasedPriceFromExisting existing rate)))%N.

Definition belowMinimum (rate : Q) (gasValues : GasValues.t)
    (transaction : Transaction.t) : Prop :=
  below (GasValues.gasPrice gasValues) (Transaction.gasPrice transaction) rate
  \/ below (GasValues.maxFeePerGas gasValues)
       (Transaction.maxFeePerGas transaction) rate
  \/ below (GasValues.maxPriorityFeePerGas gasValues)
       (Transaction.maxPriorityFeePerGas transaction) rate.

(** A controller environment for the worked cases: chain 0x1, a host in UTC,
    identity normalization, a validator that requires [from], collaborators
    that succeed, nothing happening while an approval is pending. *)
Definition sampleSigner : TxData -> string -> Completion string :=
  fun _ _ => Normal "0xf86c".

Definition sampleEnv (limit : Z) (signer : option (TxData -> string -> Completion string))
    (approval : Completion AddResult) (now : Z) : Env :=
  mkEnv limit signer (Some "0x1")
    (fun _ => Normal "0x1ee7") (fun _ => Normal 7%N) (fun _ => None)
    (fun _ => approval) (fun c => c)
    (fun transaction => transaction)
    (fun transaction =>
       if String.eqb (Transaction.from transaction) ""
       then Some (mkError None "Invalid from address") else None)
    "fresh-id" now utcDateString (fun _ => 1) (fun _ => "{}").

(** A controller that stores one record, with id ["a"]. *)
Definition oneRecord (status : TransactionStatus) (time : Z) : Controller :=
  mkController [sampleMeta "a" status time "0x1"] [0%nat] [].

(** ** Vocabulary of the statements about the controller *)

(** Every reference of the state array points to an object. *)
Definition wellFormed (c : Controller) : Prop :=
  Forall (fun r => (r < length (objects c))%nat) (transactions c).

(** The record that [getTransaction] finds for an id. *)
Definition stored (c : Controller) (transactionID : string)
  : option TransactionMeta.t :=
  (fun found => objects c !!! found.2)
    <$> findIndex (objects c) (transactions c) transactionID.

(** Effects that are not about the nonce lock. *)
Definition notNonceLock (e : Effect) : Prop :=
  match e with
  | NonceLockAcquire _ _ | NonceLockRelease _ => False
  | _ => True
  end.

(** The controller at the moment the approval request settles: the request
    has been sent and the rest of the system has run. *)
Definition whenSettled (env : Env) (transactionMeta : ref) (c : Controller)
  : Controller :=
  let meta := objects c !!! transactionMeta in
  let origin := TransactionMeta.origin meta in
  whilePending env
    (mkController (objects c) (transactions c)
       (effects c ++ [AddRequest (TransactionMeta.id meta)
                        (if truthy origin then interpolate origin else "metamask")])).

Arguments trimState : simpl never.
Arguments updateTrimmed : simpl never.
Arguments updateTransaction : simpl never.
Arguments failTransaction : simpl never.
Arguments approveTransaction : simpl never.
Arguments signAndPublish : simpl never.
Arguments cancelTransaction : simpl never.
Arguments requestApproval : simpl never.
Arguments isTransactionCompleted : simpl never.
Arguments approvalTry : simpl never.
Arguments approvalCatch : simpl never.
Arguments approvalSwitch : simpl never.
Arguments replacementFees : simpl never.
Arguments findIndex : simpl never.





(** The gas values that [speedUpTransaction] accepts for a legacy record:
    none, or an object whose only key is a hex-numeric [gasPrice] that meets
    the bumped price. *)
Definition legacyOverride (gasValues : option GasValues.t)
    (transaction : Transaction.t) : Prop :=
  match gasValues with
  | None => True
  | Some g =>
      GasValues.maxFeePerGas g = None
      /\ GasValues.maxPriorityFeePerGas g = None
      /\ match GasValues.gasPrice g with
         | Some p =>
             isHexString p = true
             /\ (convertHexToDecimal
                   (Some (getIncreasedPriceFromExisting
                            (Transaction.gasPrice transaction) SPEED_UP_RATE))
                 <= convertHexToDecimal (Some p))%N
         | None => True
         end
  end.

(** The price of the replacement of a legacy record: the caller's price, or
    else the existing one bumped by the speed-up rate. *)
Definition legacyNewGasPrice (gasValues : option GasValues.t)
    (transaction : Transaction.t) : string :=
  match gasValues ≫= GasValues.gasPrice with
  | Some p => p
  | None =>
      getIncreasedPriceFromExisting (Transaction.gasPrice transaction)
        SPEED_UP_RATE
  end.

Arguments legacyNewGasPrice : simpl never.

(** [quiet m]: whatever [m] does and however it completes, the calls it makes
    are appended to the record of calls and none of them takes or releases a
    nonce lock; [quietL] is the same for a block that runs over a local,
    which it leaves as it found it. *)
Definition quiet {T} (m : Op Controller T) : Prop :=
  forall c, exists new,
    effects (m c).2 = effects c ++ new /\ Forall notNonceLock new.

Definition quietL {L T} (m : Op (L * Controller) T) : Prop :=
  forall l c,
    (m (l, c)).2.1 = l
    /\ exists new,
         effects (m (l, c)).2.2 = effects c ++ new /\ Forall notNonceLock new.

(** The calls of one run of [approveTransaction], as far as the nonce lock is
    concerned: either the lock is never touched, or it is taken once, right
    after the mutex, and released just before the mutex is released at the
    end of the run. *)
Definition lockDiscipline (new : list Effect) : Prop :=
  Forall notNonceLock new
  \/ exists address nextNonce mid,
       new = MutexAcquire :: NonceLockAcquire address nextNonce :: mid
             ++ [NonceLockRelease address; MutexRelease]
       /\ Forall notNonceLock mid.

(** Where [approveTransaction] stands inside its [try]: the local [nonceLock]
    is unset and the lock untouched since [c0], or it is set and the lock has
    been taken once since [c0] and not released. *)
Definition lockState (c0 : Controller) (p : option string * Controller) : Prop :=
  match p.1 with
  | None => exists new,
      effects p.2 = effects c0 ++ new /\ Forall notNonceLock new
  | Some address => exists nextNonce mid,
      effects p.2 = effects c0 ++ NonceLockAcquire address nextNonce :: mid
      /\ Forall notNonceLock mid
  end.

(** The transaction that [approveTransaction] signs: the stored one with the
    nonce and the chain id stamped. *)
Definition stampedTransaction (env : Env) (nonceToUse : option string)
    (transaction : Transaction.t) : Transaction.t :=
  Transaction.with_chainId
    (Some (parseInt env (default "" (currentChainId env))))
    (Transaction.with_nonce nonceToUse transaction).

Definition stampedTxParams (env : Env) (nonceToUse : option string)
    (transaction : Transaction.t) : TxData :=
  let stamped := stampedTransaction env nonceToUse transaction in
  if isEIP1559Transaction stamped
  then mkTxData stamped (Transaction.gas stamped) (Some 2)
  else mkTxData stamped (Transaction.gas stamped) None.

(** The collaborators that [approveTransaction] calls once it holds the nonce
    lock, in order: the transaction factory, the signer, the broadcast.  The
    first that throws decides the error; otherwise the raw transaction and
    its hash come out. *)
Definition stepsAfterLock (env : Env)
    (signer : TxData -> string -> Completion string)
    (txParams : TxData) (from : string) : Completion (string * string) :=
  match fromTxData env txParams with
  | Some e => Thrown e
  | None =>
      match signer txParams from with
      | Thrown e => Thrown e
      | Normal rawTx =>
          match sendRawTransaction env rawTx with
          | Thrown e => Thrown e
          | Normal hash => Normal (rawTx, hash)
          end
      end
  end.

(** A controller that stores one record that has no nonce yet. *)
Definition pendingTransaction : Transaction.t :=
  Transaction.with_nonce None (sampleTransaction "").

Definition onePending (status : TransactionStatus) (time : Z) : Controller :=
  mkController
    [TransactionMeta.with_transaction (Some pendingTransaction)
       (sampleMeta "a" status time "")] [0%nat] [].

(** A signer that refuses. *)
Definition refusingSigner : TxData -> string -> Completion string :=
  fun _ _ => Thrown (mkError None "User denied transaction signature").

(** The record [r] is being approved under the id [transactionID]: it is in
    the well-formed state array, its status is not final, and its
    transaction normalizes to [normalized]. *)
Definition awaiting (env : Env) (r : ref) (transactionID : string)
    (normalized : Transaction.t) (s : Controller) : Prop :=
  wellFormed s /\ r ∈ transactions s
  /\ exists m t,
       objects s !! r = Some m
       /\ TransactionMeta.id m = transactionID
       /\ isFinalState (TransactionMeta.status m) = false
       /\ TransactionMeta.transaction m = Some t
       /\ normalizeTransaction env t = normalized.


(** A controller that stores one record whose transaction names no sender
    and has no nonce yet; the validator of [sampleEnv] rejects it. *)
Definition senderlessTransaction : Transaction.t :=
  Transaction.mk None None "" (Some "0x5208") (Some "0x50fd51da") None
    None (Some "0xdef") (Some "0x0") None None None None None.

Definition oneSenderless (status : TransactionStatus) (time : Z) : Controller :=
  mkController
    [TransactionMeta.with_transaction (Some senderlessTransaction)
       (sampleMeta "a" status time "")] [0%nat] [].

(* ===================================================================== *)
(** * Properties *)
(* ===================================================================== *)

(** ** Facts about the trim policy *)

Section TrimFacts.
Context {A : Type} (view : A -> TransactionMeta.t).
Context (toDateString : Z -> string) (txHistoryLimit : Z).

#[local] Abbreviation timeOf := (fun a : A => TransactionMeta.time (view a)).
#[local] Abbreviation walk := (filterTxs view toDateString txHistoryLimit).

Lemma insertSorted_Permutation pivot sorted :
    insertSorted view pivot sorted ≡ₚ pivot :: sorted.
Proof.
    induction sorted as [|e rest IH]; simpl; [done|].
    destruct (compareFn view pivot e <? 0); [done|].
    rewrite IH. apply Permutation_swap.
Qed.

Lemma foldl_insertSorted_Permutation l acc :
    foldl (fun acc pivot => insertSorted view pivot acc) acc l ≡ₚ acc ++ l.
Proof.
    revert acc. induction l as [|x l IH]; intros acc; simpl.
    - by rewrite app_nil_r.
    - rewrite IH, insertSorted_Permutation.
      by rewrite <- Permutation_middle.
Qed.

Lemma sort_Permutation l : sort view l ≡ₚ l.
Proof. apply (foldl_insertSorted_Permutation l []). Qed.

(** The walk never lets go of a record that has its parameters and is not
    in a final state, whatever the set holds. *)
Lemma filterTxs_keeps_pending seen l tx transaction :
    tx ∈ l ->
    TransactionMeta.transaction (view tx) = Some transaction ->
    isFinalState (TransactionMeta.status (view tx)) = false ->
    tx ∈ walk seen l.
Proof.
    intros Hin Htx Hst. revert seen.
    induction l as [|y l IH]; intros seen; [by apply elem_of_nil in Hin|].
    apply elem_of_cons in Hin as [->|Hin]; simpl.
    - rewrite Htx, Hst, orb_true_r.
      case_bool_decide; apply list_elem_of_here.
    - destruct (TransactionMeta.transaction (view y)); [|by apply IH].
      case_bool_decide; [apply list_elem_of_further, IH; done|].
      destruct (_ || _); [apply list_elem_of_further|]; by apply IH.
Qed.

Lemma filterTxs_Forall (P : A -> Prop) seen l :
    Forall P l -> Forall P (walk seen l).
Proof.
    intros H. revert seen. induction H as [|y l Hy Hl IH]; intros seen; simpl.
    - constructor.
    - destruct (TransactionMeta.transaction (view y)); [|apply IH].
      case_bool_decide; [constructor; auto|].
      destruct (_ || _); [constructor; auto|apply IH].
Qed.

Lemma filterTxs_StronglySorted (R : relation A) seen l :
    StronglySorted R l -> StronglySorted R (walk seen l).
Proof.
    intros H. revert seen. induction H as [|y l Hl IH Hy]; intros seen; simpl.
    - constructor.
    - destruct (TransactionMeta.transaction (view y)); [|apply IH].
      case_bool_decide.
      + constructor; [apply IH|by apply filterTxs_Forall].
      + destruct (_ || _); [|apply IH].
        constructor; [apply IH|by apply filterTxs_Forall].
Qed.

(** Walking the kept records again, from the same set, keeps them all. *)
Lemma filterTxs_idemp seen l :
    walk seen (walk seen l) = walk seen l.
Proof.
    revert seen. induction l as [|y l IH]; intros seen; simpl; [done|].
    destruct (TransactionMeta.transaction (view y)) as [t|] eqn:Ht; [|apply IH].
    case_bool_decide as Hk.
    - simpl. rewrite Ht. rewrite bool_decide_eq_true_2 by done. by rewrite IH.
    - destruct (_ || _) eqn:Hc; [|apply IH].
      simpl. rewrite Ht. rewrite bool_decide_eq_false_2 by done.
      rewrite Hc. by rewrite IH.
Qed.

Lemma insertSorted_newest pivot sorted :
    Forall ((newer view) pivot) sorted -> insertSorted view pivot sorted = pivot :: sorted.
Proof.
    destruct 1 as [|e rest He _]; simpl; [done|].
    unfold compareFn. unfold newer in He.
    destruct (Z.gtb_spec (timeOf pivot) (timeOf e)) as [_|Hle]; [done|lia].
Qed.

Lemma insertSorted_StronglySorted pivot sorted :
    StronglySorted (newer view) sorted ->
    Forall (fun e => timeOf e <> timeOf pivot) sorted ->
    StronglySorted (newer view) (insertSorted view pivot sorted).
Proof.
    induction 1 as [|e rest Hrest IH He]; intros Hne; simpl.
    - repeat constructor.
    - apply Forall_cons in Hne as [Hne1 Hne2].
      unfold compareFn.
      destruct (Z.gtb_spec (timeOf pivot) (timeOf e)) as [Hgt|Hle]; simpl.
      + constructor; [by constructor|].
        constructor; [unfold newer; lia|].
        eapply Forall_impl; [exact He|]. unfold newer. intros; simpl in *; lia.
      + constructor; [by apply IH|].
        rewrite insertSorted_Permutation. constructor; [|done].
        unfold newer. lia.
Qed.

Lemma foldl_insertSorted_StronglySorted l acc :
    StronglySorted (newer view) acc ->
    NoDup (timeOf <$> (acc ++ l)) ->
    StronglySorted (newer view) (foldl (fun acc pivot => insertSorted view pivot acc) acc l).
Proof.
    revert acc. induction l as [|x l IH]; intros acc Hacc Hnd; simpl; [done|].
    apply IH.
    - apply insertSorted_StronglySorted; [done|].
      rewrite fmap_app, fmap_cons in Hnd.
      apply NoDup_app in Hnd as (_ & Hdisj & _).
      apply Forall_forall. intros e He Heq.
      apply (Hdisj (timeOf e)).
      + apply list_elem_of_fmap. by exists e.
      + rewrite Heq. apply list_elem_of_here.
    - assert (Hp : insertSorted view x acc ++ l ≡ₚ acc ++ x :: l).
      { rewrite insertSorted_Permutation. simpl. apply Permutation_middle. }
      by rewrite Hp.
Qed.

(** With pairwise distinct timestamps the comparator is consistent and
    [sort] yields the records from the newest to the oldest. *)
Lemma sort_StronglySorted l :
    NoDup (timeOf <$> l) -> StronglySorted (newer view) (sort view l).
Proof. intros H. apply foldl_insertSorted_StronglySorted; [constructor|done]. Qed.

(** Sorting the reversal of a newest-first list restores it. *)
Lemma sort_reverse_sorted l :
    StronglySorted (newer view) l -> sort view (reverse l) = l.
Proof.
    induction 1 as [|x l Hl IH Hx]; [done|].
    rewrite reverse_cons. unfold sort in *.
    rewrite foldl_app. simpl. rewrite IH.
    by apply insertSorted_newest.
Qed.
End TrimFacts.

(** ** The trim policy on whole lists *)

Section TrimClaims.
Context {A : Type} (view : A -> TransactionMeta.t).
Context (toDateString : Z -> string) (txHistoryLimit : Z).

(** C2: for every list of records and every history limit,
    [trimTransactionsForState] keeps every record that has its transaction
    parameters and whose status is none of rejected, confirmed, failed and
    cancelled. *)
Theorem trim_keeps_non_final (l : list A) (tx : A) (transaction : Transaction.t) :
  tx ∈ l ->
  TransactionMeta.transaction (view tx) = Some transaction ->
  isFinalState (TransactionMeta.status (view tx)) = false ->
  tx ∈ trimTransactionsForState view toDateString txHistoryLimit l.
Proof.
  intros Hin Htx Hst. unfold trimTransactionsForState.
  apply elem_of_reverse.
  eapply filterTxs_keeps_pending; [|exact Htx|exact Hst].
  by rewrite sort_Permutation.
Qed.

(** C8, as the code has it: on a list whose records carry pairwise distinct
    timestamps, trimming the trimmed list returns it unchanged, records and
    order. *)
Theorem trim_idempotent_distinct_times (l : list A) :
  NoDup ((fun a => TransactionMeta.time (view a)) <$> l) ->
  trimTransactionsForState view toDateString txHistoryLimit
    (trimTransactionsForState view toDateString txHistoryLimit l)
  = trimTransactionsForState view toDateString txHistoryLimit l.
Proof.
  intros Hnd. unfold trimTransactionsForState.
  rewrite sort_reverse_sorted.
  - by rewrite filterTxs_idemp.
  - apply filterTxs_StronglySorted. by apply sort_StronglySorted.
Qed.
End TrimClaims.

Lemma trim_keeps_non_final_witness :
  sampleMeta "b" submitted 1000 "0x1"
  ∈ trimRecords 0 [sampleMeta "a" confirmed 2000 "0x2";
                   sampleMeta "b" submitted 1000 "0x1"].
Proof.
  apply (trim_keeps_non_final (fun m => m) utcDateString 0 _ _
           (sampleTransaction "0x1")).
  - apply list_elem_of_further, list_elem_of_here.
  - reflexivity.
  - reflexivity.
Defined.

Lemma trim_idempotent_distinct_times_witness :
  trimRecords 1 (trimRecords 1 [sampleMeta "a" confirmed 2000 "0x2";
                                sampleMeta "b" submitted 1000 "0x1"])
  = trimRecords 1 [sampleMeta "a" confirmed 2000 "0x2";
                   sampleMeta "b" submitted 1000 "0x1"].
Proof.
  apply (trim_idempotent_distinct_times (fun m => m) utcDateString 1).
  simpl. apply NoDup_cons. split; [|apply NoDup_singleton].
  intros H. apply list_elem_of_singleton in H. discriminate H.
Defined.

(** C8 fails when two records carry the same timestamp: with a limit of one
    key, a confirmed record stored before a submitted one of the same
    millisecond survives the first trim, which walks it first, and is dropped
    by the second, which walks it last. *)
Lemma trim_not_idempotent_equal_times :
  trimRecords 1 (trimRecords 1 [sampleMeta "b" confirmed 5 "0x2";
                                sampleMeta "a" submitted 5 "0x1"])
  <> trimRecords 1 [sampleMeta "b" confirmed 5 "0x2";
                    sampleMeta "a" submitted 5 "0x1"].
Proof. vm_compute. discriminate. Qed.

(** C5: the failing case.  With a limit of one key the newer, confirmed
    record of nonce 0x1 is dropped while the older, submitted record of the
    same nonce, chain and day is kept. *)
Theorem trim_splits_same_key_group :
  let x := sampleMeta "x" confirmed 3000 "0x2" in
  let a := sampleMeta "a" confirmed 2000 "0x1" in
  let b := sampleMeta "b" submitted 1000 "0x1" in
  nonceNetworkKey utcDateString a (sampleTransaction "0x1")
  = nonceNetworkKey utcDateString b (sampleTransaction "0x1")
  /\ trimRecords 1 [x; a; b] = [b; x].
Proof. vm_compute. split; reflexivity. Qed.

(** ** Fee bumps *)

Lemma Qceiling_le_Qfloor_succ (x : Q) : (Qceiling x <= Qfloor x + 1)%Z.
Proof.
  pose proof (Qceiling_lt x) as H1. pose proof (Qlt_floor x) as H2.
  assert (H : (inject_Z (Qceiling x - 1) < inject_Z (Qfloor x + 1))%Q)
    by (eapply Qlt_trans; eauto).
  rewrite <- Zlt_Qlt in H. lia.
Qed.

Lemma bump_floor (value : N) (rate : Q) :
  (0 <= rate)%Q -> bump value rate = Qfloor (inject_Z (Z.of_N value) * rate).
Proof.
  intros Hrate. unfold bump, getIncreasedPriceHex, convertHexToDecimal.
  rewrite HexString.to_N_of_N. rewrite Z2N.id; [done|].
  change 0%Z with (Qfloor 0). apply Qfloor_resp_le.
  apply Qmult_le_0_compat; [|done].
  change 0%Q with (inject_Z 0). rewrite <- Zle_Qle. lia.
Qed.

(** C6, as the code has it: the bumped fee is the integer part of the
    product, so it is at most the product and at least its ceiling minus
    one; and [getIncreasedPriceHex(1358778842, 1.1)] is ['0x5916a6d6']. *)
Theorem bump_is_floor (value : N) (rate : Q) :
  (0 <= rate)%Q ->
  bump value rate = Qfloor (inject_Z (Z.of_N value) * rate)
  /\ (inject_Z (bump value rate) <= inject_Z (Z.of_N value) * rate)%Q
  /\ (Qceiling (inject_Z (Z.of_N value) * rate) - 1 <= bump value rate)%Z
  /\ getIncreasedPriceHex 1358778842 SPEED_UP_RATE = "0x5916a6d6".
Proof.
  intros Hrate. rewrite (bump_floor _ _ Hrate).
  split; [done|]. split; [apply Qfloor_le|]. split; [|by vm_compute].
  pose proof (Qceiling_le_Qfloor_succ (inject_Z (Z.of_N value) * rate)). lia.
Qed.

Lemma bump_is_floor_witness :
  bump 1358778842 SPEED_UP_RATE
  = Qfloor (inject_Z (Z.of_N 1358778842) * SPEED_UP_RATE)
  /\ (inject_Z (bump 1358778842 SPEED_UP_RATE)
      <= inject_Z (Z.of_N 1358778842) * SPEED_UP_RATE)%Q
  /\ (Qceiling (inject_Z (Z.of_N 1358778842) * SPEED_UP_RATE) - 1
      <= bump 1358778842 SPEED_UP_RATE)%Z
  /\ getIncreasedPriceHex 1358778842 SPEED_UP_RATE = "0x5916a6d6".
Proof. apply (bump_is_floor 1358778842 SPEED_UP_RATE). by vm_compute. Defined.

(** C6 fails at the value of its own example: 1358778842 times 1.1 is
    1494656726.2, whose ceiling 1494656727 exceeds the bumped fee
    0x5916a6d6 = 1494656726. *)
Lemma bump_below_ceiling :
  ~ (Qceiling (inject_Z (Z.of_N 1358778842) * SPEED_UP_RATE)
     <= bump 1358778842 SPEED_UP_RATE)%Z.
Proof. vm_compute. intros H. by apply H. Qed.

(** ** Cancel and speed-up: validation before any signing *)

Ltac run :=
  unfold bind, ret, throw, liftCompletion, tryCatch, tryFinally, withLocal,
    lift, getLocal, setLocal, find, deref, getTransactions, effect, update,
    mutate, alloc; cbn.

(** C10: with an id that no stored record carries, [stopTransaction] and
    [speedUpTransaction] return without throwing, whether or not a sign
    method is configured, and leave the controller as it was: objects, state
    array and calls made (so no signing and no broadcast) -- provided the
    gas values supplied, if any, are hex strings. *)
Theorem absent_id_is_noop (env : Env) (c : Controller) (transactionID : string)
    (gasValues : option GasValues.t) :
  findIndex (objects c) (transactions c) transactionID = None ->
  match gasValues with
  | Some g => validateGasValues g = Normal tt
  | None => True
  end ->
  stopTransaction env transactionID gasValues c = (Normal tt, c)
  /\ speedUpTransaction env transactionID gasValues c = (Normal tt, c).
Proof.
  intros Hfind Hgas.
  unfold stopTransaction, speedUpTransaction. run.
  destruct gasValues as [g|]; [rewrite Hgas|]; rewrite Hfind; simpl; done.
Qed.

Lemma absent_id_is_noop_witness :
  let env := sampleEnv 40 None (Normal (mkAddResult true)) 5000 in
  let gasValues := Some (GasValues.mk (Some "0x1") None None) in
  stopTransaction env "z" gasValues (oneRecord submitted 1000)
  = (Normal tt, oneRecord submitted 1000)
  /\ speedUpTransaction env "z" gasValues (oneRecord submitted 1000)
     = (Normal tt, oneRecord submitted 1000).
Proof.
  apply (absent_id_is_noop (sampleEnv 40 None (Normal (mkAddResult true)) 5000)
           (oneRecord submitted 1000) "z"
           (Some (GasValues.mk (Some "0x1") None None))).
  - reflexivity.
  - reflexivity.
Defined.

Lemma isHexString_truthy (v : string) :
  isHexString v = true -> truthy (Some v) = true.
Proof. destruct v; [discriminate|done]. Qed.

Lemma validateGasValue_hex (key : string) (value : option string) (v : string) :
  validateGasValue key value = Normal tt -> value = Some v -> isHexString v = true.
Proof.
  intros H ->. unfold validateGasValue in H.
  by destruct (isHexString v).
Qed.

Lemma validateGasValues_hex (g : GasValues.t) :
  validateGasValues g = Normal tt ->
  validateGasValue "gasPrice" (GasValues.gasPrice g) = Normal tt
  /\ validateGasValue "maxFeePerGas" (GasValues.maxFeePerGas g) = Normal tt
  /\ validateGasValue "maxPriorityFeePerGas" (GasValues.maxPriorityFeePerGas g)
     = Normal tt.
Proof.
  unfold validateGasValues. intros H.
  destruct (validateGasValue "gasPrice" _) as [[]|]; [|discriminate].
  destruct (validateGasValue "maxFeePerGas" _) as [[]|]; [|discriminate].
  done.
Qed.

Lemma validateMinimumIncrease_cases (proposed min : string) :
  validateMinimumIncrease proposed min = Normal proposed
  \/ exists e, validateMinimumIncrease proposed min = Thrown e
               /\ isMinimumIncreaseError e.
Proof.
  unfold validateMinimumIncrease.
  destruct (N.leb_spec (convertHexToDecimal (Some min))
              (convertHexToDecimal (Some proposed))) as [Hle|Hlt]; [by left|].
  right. eexists. split; [done|]. by eexists _, _.
Qed.

Lemma validatedOr_cases (proposed : option string) (min : string)
    (fallback : option string) :
  (exists r, validatedOr proposed min fallback = Normal r)
  \/ exists e, validatedOr proposed min fallback = Thrown e
               /\ isMinimumIncreaseError e.
Proof.
  unfold validatedOr. destruct (truthy proposed); [|by left; eexists].
  destruct (validateMinimumIncrease_cases (interpolate proposed) min)
    as [->|(e & -> & He)]; [left|right]; by eexists.
Qed.

Lemma validatedOr_below (proposed existing : option string) (rate : Q)
    (key : string) (fallback : option string) :
  validateGasValue key proposed = Normal tt ->
  below proposed existing rate ->
  exists e,
    validatedOr proposed (getIncreasedPriceFromExisting existing rate) fallback
    = Thrown e /\ isMinimumIncreaseError e.
Proof.
  intros Hhex (p & -> & Hlt). unfold validatedOr.
  rewrite (isHexString_truthy p) by (by eapply validateGasValue_hex).
  simpl. unfold validateMinimumIncrease.
  destruct (N.leb_spec
              (convertHexToDecimal (Some (getIncreasedPriceFromExisting existing rate)))
              (convertHexToDecimal (Some p))) as [Hle|_]; [lia|].
  eexists. split; [done|]. by eexists _, _.
Qed.

Lemma gasPriceFromValues_eq (g : GasValues.t) :
  (if isGasPriceValue (Some g) then Some g ≫= GasValues.gasPrice else None)
  = GasValues.gasPrice g.
Proof. simpl. by destruct (GasValues.gasPrice g). Qed.

Lemma maxFeePerGasValues_eq (g : GasValues.t) :
  (if isFeeMarketEIP1559Values (Some g) then Some g ≫= GasValues.maxFeePerGas
   else None) = GasValues.maxFeePerGas g.
Proof.
  simpl. destruct (GasValues.maxFeePerGas g); [done|].
  by destruct (_ || _).
Qed.

Lemma maxPriorityFeePerGasValues_eq (g : GasValues.t) :
  (if isFeeMarketEIP1559Values (Some g)
   then Some g ≫= GasValues.maxPriorityFeePerGas else None)
  = GasValues.maxPriorityFeePerGas g.
Proof.
  simpl. destruct (GasValues.maxPriorityFeePerGas g); [by rewrite orb_true_r|].
  by destruct (_ || _).
Qed.

(** A value below its minimum makes the whole fee computation throw, and
    nothing but the minimum-increase error can come out of it. *)
Lemma replacementFees_below (rate : Q) (g : GasValues.t) (transaction : Transaction.t) :
  validateGasValues g = Normal tt ->
  belowMinimum rate g transaction ->
  exists e, replacementFees rate (Some g) transaction = Thrown e
            /\ isMinimumIncreaseError e.
Proof.
  intros (H1 & H2 & H3)%validateGasValues_hex Hbelow.
  unfold replacementFees.
  rewrite gasPriceFromValues_eq, maxFeePerGasValues_eq,
    maxPriorityFeePerGasValues_eq.
  match goal with |- context [validatedOr (GasValues.gasPrice g) ?m ?f] =>
    destruct (validatedOr_cases (GasValues.gasPrice g) m f)
      as [(r1 & Hr1)|(e & He & Herr)]
  end; [|rewrite He; eauto].
  destruct Hbelow as [Hb|Hbelow].
  { eapply validatedOr_below in Hb as (e & He & _); [|exact H1].
    rewrite He in Hr1. discriminate Hr1. }
  rewrite Hr1.
  match goal with |- context [validatedOr (GasValues.maxFeePerGas g) ?m ?f] =>
    destruct (validatedOr_cases (GasValues.maxFeePerGas g) m f)
      as [(r2 & Hr2)|(e & He & Herr)]
  end; [|rewrite He; eauto].
  destruct Hbelow as [Hb|Hb].
  { eapply validatedOr_below in Hb as (e & He & _); [|exact H2].
    rewrite He in Hr2. discriminate Hr2. }
  rewrite Hr2.
  eapply validatedOr_below in Hb as (e & He & Herr); [|exact H3].
  rewrite He. eauto.
Qed.

(** C7, as the code has it: when a sign method is configured, a call on a
    stored record with hex-numeric gas values one of which lies below the
    minimum computed from the record (existing value times 1.5 for
    [stopTransaction], times 1.1 for [speedUpTransaction]) throws the
    minimum-increase error and leaves the controller as it was: the stored
    list is unchanged and neither [sign] nor [sendRawTransaction] has been
    called. *)
Theorem override_below_minimum_rejected (env : Env) (c : Controller)
    (transactionID : string) (g : GasValues.t) (index : nat) (r : ref)
    (transaction : Transaction.t)
    (signer : TxData -> string -> Completion string) :
  sign env = Some signer ->
  findIndex (objects c) (transactions c) transactionID = Some (index, r) ->
  TransactionMeta.transaction (objects c !!! r) = Some transaction ->
  validateGasValues g = Normal tt ->
  (belowMinimum CANCEL_RATE g transaction ->
   exists e, stopTransaction env transactionID (Some g) c = (Thrown e, c)
             /\ isMinimumIncreaseError e)
  /\ (belowMinimum SPEED_UP_RATE g transaction ->
      exists e, speedUpTransaction env transactionID (Some g) c = (Thrown e, c)
                /\ isMinimumIncreaseError e).
Proof.
  intros Hsign Hfind Htx Hgas.
  split; intros Hbelow;
    destruct (replacementFees_below _ _ _ Hgas Hbelow) as (e & He & Herr);
    exists e; (split; [|done]).
  - unfold stopTransaction. run.
    rewrite Hgas, Hfind. simpl. rewrite Hsign. simpl. by rewrite Htx, He.
  - unfold speedUpTransaction. run.
    rewrite Hgas, Hfind. simpl. rewrite Hsign. simpl. by rewrite Htx, He.
Qed.

Lemma override_below_minimum_rejected_witness :
  let env := sampleEnv 40 (Some sampleSigner) (Normal (mkAddResult true)) 5000 in
  let g := GasValues.mk (Some "0x50fd51da") None None in
  (exists e, stopTransaction env "a" (Some g) (oneRecord submitted 1000)
             = (Thrown e, oneRecord submitted 1000)
             /\ isMinimumIncreaseError e)
  /\ (exists e, speedUpTransaction env "a" (Some g) (oneRecord submitted 1000)
                = (Thrown e, oneRecord submitted 1000)
                /\ isMinimumIncreaseError e).
Proof.
  destruct (override_below_minimum_rejected
              (sampleEnv 40 (Some sampleSigner) (Normal (mkAddResult true)) 5000)
              (oneRecord submitted 1000) "a"
              (GasValues.mk (Some "0x50fd51da") None None) 0%nat 0%nat
              (sampleTransaction "0x1") sampleSigner
              eq_refl eq_refl eq_refl eq_refl) as [Hstop Hspeed].
  split; [apply Hstop|apply Hspeed];
    (left; exists "0x50fd51da"; split; [reflexivity|by vm_compute]).
Defined.

(** C7 fails when no sign method is configured: the call throws before the
    fees are looked at, and the error is not the minimum-increase one. *)
Lemma override_below_minimum_without_signer :
  let env := sampleEnv 40 None (Normal (mkAddResult true)) 5000 in
  let g := GasValues.mk (Some "0x50fd51da") None None in
  belowMinimum CANCEL_RATE g (sampleTransaction "0x1")
  /\ stopTransaction env "a" (Some g) (oneRecord submitted 1000)
     = (Thrown (mkError None "No sign method defined."), oneRecord submitted 1000)
  /\ ~ isMinimumIncreaseError (mkError None "No sign method defined.").
Proof.
  split; [|split].
  - left. exists "0x50fd51da". split; [reflexivity|]. by vm_compute.
  - reflexivity.
  - intros (p & m & _ & H). simpl in H. discriminate H.
Qed.

(** ** The state array and the objects behind it *)

Section ArrayFacts.
Context {A : Type} (view : A -> TransactionMeta.t).
Context (toDateString : Z -> string) (txHistoryLimit : Z).

Lemma filterTxs_subset seen (l : list A) x :
  x ∈ filterTxs view toDateString txHistoryLimit seen l -> x ∈ l.
Proof.
  revert seen. induction l as [|y l IH]; intros seen; simpl; [done|].
  destruct (TransactionMeta.transaction (view y)).
  - case_bool_decide.
    + intros [->|Hx]%elem_of_cons; [left|right; eauto].
    + destruct (_ || _).
      * intros [->|Hx]%elem_of_cons; [left|right; eauto].
      * intros Hx. right. eauto.
  - intros Hx. right. eauto.
Qed.

(** Trimming only removes. *)
Lemma trim_subset (l : list A) x :
  x ∈ trimTransactionsForState view toDateString txHistoryLimit l -> x ∈ l.
Proof.
  unfold trimTransactionsForState. rewrite elem_of_reverse.
  intros H%filterTxs_subset. by rewrite sort_Permutation in H.
Qed.
End ArrayFacts.

Lemma insertSorted_ext {A} (view1 view2 : A -> TransactionMeta.t) pivot sorted :
  view1 pivot = view2 pivot ->
  Forall (fun x => view1 x = view2 x) sorted ->
  insertSorted view1 pivot sorted = insertSorted view2 pivot sorted.
Proof.
  intros Hp. induction 1 as [|e rest He Hrest IH]; simpl; [done|].
  unfold compareFn. rewrite Hp, He, IH. done.
Qed.

Lemma foldl_insertSorted_ext {A} (view1 view2 : A -> TransactionMeta.t) l acc :
  Forall (fun x => view1 x = view2 x) acc ->
  Forall (fun x => view1 x = view2 x) l ->
  foldl (fun acc pivot => insertSorted view1 pivot acc) acc l
  = foldl (fun acc pivot => insertSorted view2 pivot acc) acc l.
Proof.
  intros Hacc Hl. revert acc Hacc.
  induction Hl as [|x l Hx Hl IH]; intros acc Hacc; simpl; [done|].
  rewrite (insertSorted_ext view1 view2) by done.
  apply IH.
  eapply Forall_forall. intros y Hy.
  rewrite insertSorted_Permutation in Hy.
  apply elem_of_cons in Hy as [->|Hy]; [done|].
  by eapply Forall_forall in Hacc.
Qed.

Lemma filterTxs_ext {A} (view1 view2 : A -> TransactionMeta.t) d limit seen l :
  Forall (fun x => view1 x = view2 x) l ->
  filterTxs view1 d limit seen l = filterTxs view2 d limit seen l.
Proof.
  intros Hl. revert seen.
  induction Hl as [|x l Hx Hl IH]; intros seen; simpl; [done|].
  rewrite Hx. destruct (TransactionMeta.transaction (view2 x)); [|apply IH].
  by rewrite !IH.
Qed.

(** The trim reads the records of the array and nothing else. *)
Lemma trim_ext {A} (view1 view2 : A -> TransactionMeta.t) d limit l :
  Forall (fun x => view1 x = view2 x) l ->
  trimTransactionsForState view1 d limit l
  = trimTransactionsForState view2 d limit l.
Proof.
  intros Hl. unfold trimTransactionsForState, sort.
  rewrite (foldl_insertSorted_ext view1 view2) by done.
  rewrite (filterTxs_ext view1 view2); [done|].
  apply Forall_forall. intros x Hx.
  change (x ∈ sort view2 l) in Hx. rewrite sort_Permutation in Hx.
  by eapply Forall_forall in Hl.
Qed.

Lemma findIndex_ext (objs1 objs2 : list TransactionMeta.t) (txs : list ref)
    (transactionID : string) :
  Forall (fun r => TransactionMeta.id (objs1 !!! r) = TransactionMeta.id (objs2 !!! r))
    txs ->
  findIndex objs1 txs transactionID = findIndex objs2 txs transactionID.
Proof.
  unfold findIndex. induction 1 as [|r txs Hr Htxs IH]; simpl; [done|].
  rewrite Hr, IH. done.
Qed.

Lemma findIndex_Some objs txs transactionID index r :
  findIndex objs txs transactionID = Some (index, r) ->
  txs !! index = Some r /\ TransactionMeta.id (objs !!! r) = transactionID.
Proof. unfold findIndex. intros (? & ? & _)%list_find_Some. done. Qed.

Lemma findIndex_is_Some objs txs r :
  r ∈ txs -> is_Some (findIndex objs txs (TransactionMeta.id (objs !!! r))).
Proof. intros Hr. unfold findIndex. by eapply list_find_elem_of. Qed.

Lemma alter_keeps_id (f : TransactionMeta.t -> TransactionMeta.t)
    (objs : list TransactionMeta.t) (r r' : ref) :
  (forall m, TransactionMeta.id (f m) = TransactionMeta.id m) ->
  TransactionMeta.id (alter f r objs !!! r') = TransactionMeta.id (objs !!! r').
Proof.
  intros Hf. rewrite list_lookup_total_alter.
  case_decide as H; [|done]. destruct H as [-> _]. apply Hf.
Qed.

Lemma findIndex_alter f objs txs transactionID r :
  (forall m, TransactionMeta.id (f m) = TransactionMeta.id m) ->
  findIndex (alter f r objs) txs transactionID = findIndex objs txs transactionID.
Proof.
  intros Hf. apply findIndex_ext, Forall_forall. intros r' _.
  by apply alter_keeps_id.
Qed.

Lemma findIndex_alloc objs txs transactionID (m : TransactionMeta.t) :
  Forall (fun r => (r < length objs)%nat) txs ->
  findIndex (objs ++ [m]) txs transactionID = findIndex objs txs transactionID.
Proof.
  intros Hwf. apply findIndex_ext. eapply Forall_impl; [exact Hwf|].
  intros r Hr. simpl. by rewrite lookup_total_app_l.
Qed.

(** ** Approval: rejection by the user *)

Section Approval.
Context (env : Env).

Lemma requestApproval_run (r : ref) (c : Controller) :
  requestApproval env r c
  = (addRequest env (objects c !!! r), whenSettled env r c).
Proof. unfold requestApproval, whenSettled. run. done. Qed.

Lemma stored_None_after_removal (objs : list TransactionMeta.t) (txs kept : list ref)
    (transactionID : string) :
  (forall r, r ∈ kept ->
     r ∈ List.filter
           (fun r => negb (bool_decide (TransactionMeta.id (objs !!! r) = transactionID)))
           txs) ->
  findIndex objs kept transactionID = None.
Proof.
  intros Hsub. unfold findIndex. apply list_find_None, Forall_forall.
  intros r Hr%Hsub. apply list_elem_of_In, filter_In in Hr as [_ Hr].
  apply negb_true_iff, bool_decide_eq_false in Hr. done.
Qed.

(** [cancelTransaction] on a stored record. *)
Lemma cancelTransaction_run (c : Controller) (transactionID : string)
    (index : nat) (r : ref) (m : TransactionMeta.t) :
  findIndex (objects c) (transactions c) transactionID = Some (index, r) ->
  objects c !! r = Some m ->
  exists c',
    cancelTransaction env transactionID c = (Normal tt, c')
    /\ objects c' = alter (TransactionMeta.with_status rejected) r (objects c)
    /\ objects c' !! r = Some (TransactionMeta.with_status rejected m)
    /\ effects c'
       = effects c ++ [HubEmit (transactionID +:+ ":finished")
                         (TransactionMeta.with_status rejected m)]
    /\ stored c' transactionID = None.
Proof.
  intros Hfind Hm.
  pose proof (findIndex_Some _ _ _ _ _ Hfind) as [_ Hid].
  assert (Hm' : alter (TransactionMeta.with_status rejected) r (objects c) !! r
                = Some (TransactionMeta.with_status rejected m))
    by (by rewrite list_lookup_alter_eq, Hm).
  assert (Htot : alter (TransactionMeta.with_status rejected) r (objects c) !!! r
                 = TransactionMeta.with_status rejected m)
    by (by apply list_lookup_total_correct).
  unfold cancelTransaction, emit, updateTrimmed. run.
  rewrite Hfind. simpl. eexists. split; [reflexivity|]. simpl.
  rewrite Htot. simpl.
  rewrite (list_lookup_total_correct _ _ _ Hm) in Hid. rewrite Hid.
  split_and!; try done.
  unfold stored. simpl.
  rewrite (stored_None_after_removal _ (transactions c)); [done|].
  intros x Hx. by apply trim_subset in Hx.
Qed.

(** C3: when the approval service rejects the request with the user-rejection
    code and the record that the controller then finds for the id is not in a
    locally-final status, the promise of [addTransaction] rejects with the
    user-rejection error, the status of that record is set to [rejected], and
    [<id>:finished] is emitted with the rejected record, the only event of
    the run; the record is not failed, and it leaves the state. *)
Theorem user_rejection_marks_rejected (c : Controller) (transactionMeta : ref)
    (e : Error) (index : nat) (r : ref) (m : TransactionMeta.t) :
  let transactionId := TransactionMeta.id (objects c !!! transactionMeta) in
  let c1 := whenSettled env transactionMeta c in
  addRequest env (objects c !!! transactionMeta) = Thrown e ->
  code e = Some userRejectedRequestCode ->
  findIndex (objects c1) (transactions c1) transactionId = Some (index, r) ->
  objects c1 !! r = Some m ->
  isLocalFinalState (TransactionMeta.status m) = false ->
  exists c',
    processApproval env transactionMeta c
    = (Thrown (userRejectedRequest "User rejected the transaction"), c')
    /\ code (userRejectedRequest "User rejected the transaction")
       = Some userRejectedRequestCode
    /\ objects c' !! r = Some (TransactionMeta.with_status rejected m)
    /\ effects c'
       = effects c1 ++ [HubEmit (transactionId +:+ ":finished")
                          (TransactionMeta.with_status rejected m)]
    /\ stored c' transactionId = None.
Proof.
  intros transactionId c1 Hreq Hcode Hfind Hm Hfinal.
  destruct (cancelTransaction_run c1 transactionId index r m Hfind Hm)
    as (c' & Hrun & _ & Hobj & Heff & Hstored).
  exists c'. split; [|done].
  unfold processApproval, approvalTry, approvalCatch, isTransactionCompleted,
    getTransaction.
  run. rewrite requestApproval_run, Hreq. simpl.
  fold c1. fold transactionId. rewrite Hfind. simpl.
  rewrite (list_lookup_total_correct _ _ _ Hm), Hfinal.
  rewrite bool_decide_eq_true_2 by done.
  rewrite Hrun. done.
Qed.
End Approval.

Lemma user_rejection_marks_rejected_witness :
  let env := sampleEnv 40 (Some sampleSigner)
               (Thrown (userRejectedRequest "User denied")) 5000 in
  let c := oneRecord unapproved 1000 in
  let m := sampleMeta "a" unapproved 1000 "0x1" in
  exists c',
    processApproval env 0%nat c
    = (Thrown (userRejectedRequest "User rejected the transaction"), c')
    /\ code (userRejectedRequest "User rejected the transaction")
       = Some userRejectedRequestCode
    /\ objects c' !! 0%nat = Some (TransactionMeta.with_status rejected m)
    /\ effects c'
       = effects (whenSettled env 0%nat c)
         ++ [HubEmit ("a" +:+ ":finished") (TransactionMeta.with_status rejected m)]
    /\ stored c' "a" = None.
Proof.
  exact (user_rejection_marks_rejected
           (sampleEnv 40 (Some sampleSigner)
              (Thrown (userRejectedRequest "User denied")) 5000)
           (oneRecord unapproved 1000) 0%nat
           (userRejectedRequest "User denied") 0%nat 0%nat
           (sampleMeta "a" unapproved 1000 "0x1")
           eq_refl eq_refl eq_refl eq_refl eq_refl).
Defined.

(** ** Invariants of the controller along a method *)

Section Keeps.
Context (I : Controller -> Prop).













End Keeps.

(** ** What the state-changing methods do *)

Lemma elem_of_insert_inv {T} (l : list T) (i : nat) (x y : T) :
  y ∈ <[i := x]> l -> y = x \/ y ∈ l.
Proof.
  intros (j & Hj)%list_elem_of_lookup_1.
  apply list_lookup_insert_Some in Hj as [(-> & -> & _)|[_ Hj]]; [by left|].
  right. by eapply list_elem_of_lookup_2.
Qed.

Section MethodFacts.
Context (env : Env).

(** [updateTransaction], path by path. *)
Lemma updateTransaction_run (r : ref) (c : Controller) :
  updateTransaction env r c =
  match TransactionMeta.transaction (objects c !!! r) with
  | None => (Thrown typeError, c)
  | Some transaction =>
      let normalized := normalizeTransaction env transaction in
      let objs :=
        alter (TransactionMeta.with_transaction (Some normalized)) r (objects c) in
      match validateTransaction env normalized with
      | Some error =>
          (Thrown error, mkController objs (transactions c) (effects c))
      | None =>
          (Normal tt,
           mkController objs
             (trimState env objs
                match findIndex objs (transactions c)
                        (TransactionMeta.id (objects c !!! r)) with
                | Some (index, _) => <[index := r]> (transactions c)
                | None => transactions c
                end)
             (effects c))
      end
  end.
Proof.
  unfold updateTransaction, updateTrimmed. run.
  destruct (TransactionMeta.transaction (objects c !!! r)); [|done].
  cbn. by destruct (validateTransaction env _).
Qed.

Lemma trimState_valid (objs : list TransactionMeta.t) (txs : list ref) (n : nat) :
  Forall (fun r => (r < n)%nat) txs ->
  Forall (fun r => (r < n)%nat) (trimState env objs txs).
Proof.
  rewrite !Forall_forall. intros H x Hx. apply H.
  by eapply trim_subset.
Qed.

(** What [updateTransaction] writes back keeps every record that has its
    transaction and is not in a final state. *)
Lemma trimState_keeps_non_final (objs : list TransactionMeta.t) (txs : list ref)
    (r : ref) (transaction : Transaction.t) :
  r ∈ txs ->
  TransactionMeta.transaction (objs !!! r) = Some transaction ->
  isFinalState (TransactionMeta.status (objs !!! r)) = false ->
  r ∈ trimState env objs txs.
Proof.
  intros Hin Htx Hst. unfold trimState, trimTransactionsForState.
  apply elem_of_reverse.
  eapply filterTxs_keeps_pending; [|exact Htx|exact Hst].
  by rewrite sort_Permutation.
Qed.




End MethodFacts.

Section ApproveKeeps.
Context (env : Env) (r0 : ref).











End ApproveKeeps.




(** ** The promise of [addTransaction] *)

Section Promise.
Context (env : Env).





End Promise.



(** ** Speed-up of a legacy record *)

Lemma getIncreasedPriceFromExisting_truthy (value : option string) (rate : Q) :
  truthy (Some (getIncreasedPriceFromExisting value rate)) = true.
Proof.
  unfold getIncreasedPriceFromExisting, getIncreasedPriceHex.
  by destruct (Z.to_N _).
Qed.

Lemma replacementFees_legacy (gasValues : option GasValues.t)
    (transaction : Transaction.t) :
  Transaction.maxFeePerGas transaction = None ->
  Transaction.maxPriorityFeePerGas transaction = None ->
  match gasValues with
  | Some g => validateGasValues g = Normal tt
  | None => True
  end ->
  legacyOverride gasValues transaction ->
  replacementFees SPEED_UP_RATE gasValues transaction
  = Normal (mkReplacementFees (Some (legacyNewGasPrice gasValues transaction))
              None None).
Proof.
  intros Hfee Hprio Hvalid Hover.
  unfold replacementFees, legacyNewGasPrice. rewrite Hfee, Hprio.
  destruct gasValues as [[gp mf mp]|]; cbn in *.
  - destruct Hover as (-> & -> & Hgp). cbn.
    destruct gp as [p|]; cbn.
    + destruct Hgp as [Hhex Hle]. unfold validatedOr at 1.
      rewrite (isHexString_truthy p Hhex). cbn.
      unfold validateMinimumIncrease.
      destruct (N.leb_spec
                  (convertHexToDecimal
                     (Some (getIncreasedPriceFromExisting
                              (Transaction.gasPrice transaction) SPEED_UP_RATE)))
                  (convertHexToDecimal (Some p))) as [_|Hlt];
        [|unfold convertHexToDecimal in *; lia].
      pose proof (isHexString_truthy p Hhex) as Htruthy. cbn in Htruthy.
      by rewrite Htruthy.
    + done.
  - done.
Qed.

(** C9, as the code has it: a successful [speedUpTransaction] on a record with
    a legacy [gasPrice] and no fee-market fields, called with no gas values or
    with a [gasPrice] that meets the minimum, allocates one record -- the
    generated id, the current time, the hash of the broadcast, the same
    [from] and [nonce], and as [gasPrice] the caller's value or else the
    existing one bumped at the 1.1 rate -- and changes no field of any
    existing record.  The new state array is the history trim of the old one
    followed by the new record; when the status of the original is not
    final, both the original and the new record are in it. *)
Theorem speedUp_legacy_adds_bumped_record (env : Env) (c : Controller)
    (transactionID : string) (gasValues : option GasValues.t)
    (index : nat) (r : ref) (meta : TransactionMeta.t)
    (transaction : Transaction.t) (existing : string)
    (signer : TxData -> string -> Completion string) (rawTx hash : string) :
  let price := legacyNewGasPrice gasValues transaction in
  let newTransaction := Transaction.with_gasPrice (Some price) transaction in
  let txParams := mkTxData newTransaction (Transaction.gas transaction) None in
  let newMeta :=
    TransactionMeta.with_transaction (Some newTransaction)
      (TransactionMeta.with_hash (Some hash)
         (TransactionMeta.with_time (now env)
            (TransactionMeta.with_id (random env) meta))) in
  let newRef := length (objects c) in
  findIndex (objects c) (transactions c) transactionID = Some (index, r) ->
  objects c !! r = Some meta ->
  TransactionMeta.transaction meta = Some transaction ->
  Transaction.gasPrice transaction = Some existing ->
  Transaction.maxFeePerGas transaction = None ->
  Transaction.maxPriorityFeePerGas transaction = None ->
  match gasValues with
  | Some g => validateGasValues g = Normal tt
  | None => True
  end ->
  legacyOverride gasValues transaction ->
  sign env = Some signer ->
  fromTxData env txParams = None ->
  signer txParams (Transaction.from transaction) = Normal rawTx ->
  sendRawTransaction env rawTx = Normal hash ->
  exists c',
    speedUpTransaction env transactionID gasValues c = (Normal tt, c')
    /\ objects c' = objects c ++ [newMeta]
    /\ objects c' !! r = Some meta
    /\ Transaction.from newTransaction = Transaction.from transaction
    /\ Transaction.nonce newTransaction = Transaction.nonce transaction
    /\ transactions c'
       = trimState env (objects c') (transactions c ++ [newRef])
    /\ effects c'
       = effects c ++ [Sign txParams (Transaction.from transaction);
                       SendRawTransaction rawTx;
                       HubEmit (transactionID +:+ ":speedup") newMeta]
    /\ (isFinalState (TransactionMeta.status meta) = false ->
        r ∈ transactions c' /\ newRef ∈ transactions c').
Proof.
  intros price newTransaction txParams newMeta newRef
    Hfind Hmeta Htx Hprice Hfee Hprio Hvalid Hover Hsign Hfrom Hsigned Hsent.
  subst price newTransaction txParams newMeta newRef.
  pose proof (findIndex_Some _ _ _ _ _ Hfind) as [Hr Hid].
  pose proof (list_lookup_total_correct _ _ _ Hmeta) as Htot.
  rewrite Htot in Hid.
  eexists. split.
  { unfold speedUpTransaction, prepareUnsignedEthTx, callSign,
      publishTransaction, emit, updateTrimmed.
    run.
    pose proof (replacementFees_legacy _ _ Hfee Hprio Hvalid Hover) as Hfees.
    destruct gasValues as [g|]; [rewrite Hvalid|];
      cbn; rewrite Hfind; cbn; rewrite Hsign; cbn; rewrite Htot, Htx; cbn;
      rewrite Hfees; cbn;
      rewrite Hfrom; cbn; rewrite Hsigned; cbn; rewrite Hsent; cbn;
      rewrite list_lookup_total_middle by done;
      reflexivity. }
  cbn. rewrite Hid, <- !app_assoc.
  split_and!; try done.
  - apply lookup_app_l_Some, Hmeta.
  - intros Hfinal. split.
    + eapply (trimState_keeps_non_final _ _ _ _ transaction).
      * apply elem_of_app. left. by eapply list_elem_of_lookup_2.
      * rewrite lookup_total_app_l by (by eapply lookup_lt_Some).
        by rewrite Htot.
      * rewrite lookup_total_app_l by (by eapply lookup_lt_Some).
        by rewrite Htot.
    + eapply trimState_keeps_non_final.
      * apply elem_of_app. right. apply list_elem_of_here.
      * by rewrite list_lookup_total_middle.
      * by rewrite list_lookup_total_middle.
Qed.

Lemma speedUp_legacy_adds_bumped_record_witness :
  let env := sampleEnv 40 (Some sampleSigner) (Normal (mkAddResult true)) 5000 in
  exists c',
    speedUpTransaction env "a" None (oneRecord submitted 1000) = (Normal tt, c')
    /\ objects c' !! 0%nat = Some (sampleMeta "a" submitted 1000 "0x1")
    /\ (TransactionMeta.transaction <$> objects c' !! 1%nat)
       = Some (Some (Transaction.with_gasPrice (Some "0x5916a6d6")
                       (sampleTransaction "0x1")))
    /\ 0%nat ∈ transactions c' /\ 1%nat ∈ transactions c'.
Proof.
  destruct (speedUp_legacy_adds_bumped_record
              (sampleEnv 40 (Some sampleSigner) (Normal (mkAddResult true)) 5000)
              (oneRecord submitted 1000) "a" None 0%nat 0%nat
              (sampleMeta "a" submitted 1000 "0x1") (sampleTransaction "0x1")
              "0x50fd51da" sampleSigner "0xf86c" "0x1ee7"
              eq_refl eq_refl eq_refl eq_refl eq_refl eq_refl I I
              eq_refl eq_refl eq_refl eq_refl)
    as (c' & Hrun & Hobjs & Horig & _ & _ & _ & _ & Hin).
  exists c'. destruct (Hin eq_refl) as [H0 H1].
  split_and!; try done.
  by rewrite Hobjs.
Defined.

(** C9 fails when the history is full: with a limit of one key, speeding up
    a confirmed legacy record two days after it was created succeeds, and
    the state array then holds the new record alone -- no record more than
    before, and the original is gone. *)
Lemma speedUp_can_drop_the_original :
  let env := sampleEnv 1 (Some sampleSigner) (Normal (mkAddResult true)) 172800010 in
  let run := speedUpTransaction env "a" None (oneRecord confirmed 10) in
  run.1 = Normal tt
  /\ transactions (oneRecord confirmed 10) = [0%nat]
  /\ transactions run.2 = [1%nat]
  /\ (TransactionMeta.id <$> objects run.2 !! 1%nat) = Some "fresh-id".
Proof. vm_compute. done. Qed.

(** ** The nonce lock of [approveTransaction] *)

Section Quiet.

Lemma quiet_ret {T} (x : T) : quiet (ret x).
Proof. intros c. exists []. by rewrite app_nil_r. Qed.

Lemma quiet_throw {T} (e : Error) : quiet (@throw Controller T e).
Proof. intros c. exists []. by rewrite app_nil_r. Qed.

Lemma quiet_liftCompletion {T} (x : Completion T) : quiet (liftCompletion x).
Proof. intros c. exists []. by rewrite app_nil_r. Qed.

Lemma quiet_deref (r : ref) : quiet (deref r).
Proof. intros c. exists []. by rewrite app_nil_r. Qed.

Lemma quiet_mutate (r : ref) f : quiet (mutate r f).
Proof. intros c. exists []. by rewrite app_nil_r. Qed.

Lemma quiet_mutateTransaction (r : ref) f : quiet (mutateTransaction r f).
Proof. apply quiet_mutate. Qed.

Lemma quiet_effect (e : Effect) : notNonceLock e -> quiet (effect e).
Proof. intros He c. exists [e]. split; [done|]. by constructor. Qed.

Lemma quiet_bind {T U} (m : Op Controller T) (k : T -> Op Controller U) :
  quiet m -> (forall x, quiet (k x)) -> quiet (bind m k).
Proof.
  intros Hm Hk c. unfold bind. destruct (Hm c) as (new1 & H1 & Hq1).
  destruct (m c) as [[x|e] c1]; cbn in *; [|by eauto].
  destruct (Hk x c1) as (new2 & H2 & Hq2).
  exists (new1 ++ new2). rewrite H2, H1, app_assoc. split; [done|].
  by apply Forall_app.
Qed.

Lemma quietL_ret {L T} (x : T) : quietL (@ret (L * Controller) T x).
Proof. intros l c. split; [done|]. exists []. by rewrite app_nil_r. Qed.

Lemma quietL_lift {L T} (m : Op Controller T) : quiet m -> quietL (@lift L _ _ m).
Proof.
  intros Hm l c. unfold lift. destruct (Hm c) as (new & H & Hq).
  destruct (m c) as [x c1]. cbn in *. eauto.
Qed.

Lemma quietL_bind {L T U} (m : Op (L * Controller) T)
    (k : T -> Op (L * Controller) U) :
  quietL m -> (forall x, quietL (k x)) -> quietL (bind m k).
Proof.
  intros Hm Hk l c. unfold bind. destruct (Hm l c) as (Hl & new1 & H1 & Hq1).
  destruct (m (l, c)) as [[x|e] [l1 c1]]; cbn in *; [|by eauto].
  subst l1. destruct (Hk x l c1) as (Hl2 & new2 & H2 & Hq2).
  split; [done|]. exists (new1 ++ new2). rewrite H2, H1, app_assoc.
  split; [done|]. by apply Forall_app.
Qed.
End Quiet.

Section QuietMethods.
Context (env : Env).

Lemma quiet_emit (eventName : string) (r : ref) : quiet (emit eventName r).
Proof.
  unfold emit. apply quiet_bind; [apply quiet_deref|].
  intros m. by apply quiet_effect.
Qed.

Lemma quiet_updateTransaction (r : ref) : quiet (updateTransaction env r).
Proof.
  intros c. rewrite updateTransaction_run. exists [].
  rewrite app_nil_r. split; [|done].
  destruct (TransactionMeta.transaction _); [|done].
  cbv zeta. by destruct (validateTransaction env _).
Qed.

Lemma quiet_failTransaction (r : ref) (e : Error) :
  quiet (failTransaction env r e).
Proof.
  unfold failTransaction.
  apply quiet_bind; [apply quiet_deref|]. intros m.
  apply quiet_bind; [intros c; exists []; by rewrite app_nil_r|]. intros r'.
  apply quiet_bind; [apply quiet_updateTransaction|]. intros _.
  apply quiet_emit.
Qed.

Lemma quiet_prepareUnsignedEthTx txParams :
  quiet (prepareUnsignedEthTx env txParams).
Proof.
  unfold prepareUnsignedEthTx.
  destruct (fromTxData env txParams); [apply quiet_throw|apply quiet_ret].
Qed.

Lemma quiet_callSign signer unsignedEthTx from :
  quiet (callSign signer unsignedEthTx from).
Proof.
  unfold callSign. apply quiet_bind; [by apply quiet_effect|].
  intros _. apply quiet_liftCompletion.
Qed.

Lemma quiet_publishTransaction rawTx : quiet (publishTransaction env rawTx).
Proof.
  unfold publishTransaction. apply quiet_bind; [by apply quiet_effect|].
  intros _. apply quiet_liftCompletion.
Qed.
End QuietMethods.

Ltac quiet_step :=
  lazymatch goal with
  | |- quietL (lift _) => apply quietL_lift
  | |- quietL (bind _ _) => apply quietL_bind; [|intros ?]
  | |- quietL (ret _) => apply quietL_ret
  | |- quiet (bind _ _) => apply quiet_bind; [|intros ?]
  | |- quiet (ret _) => apply quiet_ret
  | |- quiet (throw _) => apply quiet_throw
  | |- quiet (liftCompletion _) => apply quiet_liftCompletion
  | |- quiet (effect _) => apply quiet_effect; exact I
  | |- quiet (deref _) => apply quiet_deref
  | |- quiet (mutate _ _) => apply quiet_mutate
  | |- quiet (mutateTransaction _ _) => apply quiet_mutateTransaction
  | |- quiet (emit _ _) => apply quiet_emit
  | |- quiet (prepareUnsignedEthTx _ _) => apply quiet_prepareUnsignedEthTx
  | |- quiet (callSign _ _ _) => apply quiet_callSign
  | |- quiet (publishTransaction _ _) => apply quiet_publishTransaction
  | |- quiet (updateTransaction _ _) => apply quiet_updateTransaction
  | |- quiet (failTransaction _ _ _) => apply quiet_failTransaction
  | |- _ => case_match
  end.

Lemma quiet_signAndPublish (env : Env) signer r txParams from finished :
  quiet (signAndPublish env signer r txParams from finished).
Proof. unfold signAndPublish. repeat quiet_step. Qed.

Lemma lockState_quietL {T} (c0 : Controller) (m : Op (option string * Controller) T)
    (p : option string * Controller) :
  quietL m -> lockState c0 p -> lockState c0 (m p).2.
Proof.
  intros Hm Hp. destruct p as [l c]. destruct (Hm l c) as (Hl & new & H & Hq).
  unfold lockState in *. rewrite Hl. cbn in *.
  destruct l as [address|].
  - destruct Hp as (n & mid & Hmid & Hqmid).
    exists n, (mid ++ new). rewrite H, Hmid, <- app_assoc. split; [done|].
    by apply Forall_app.
  - destruct Hp as (new0 & H0 & Hq0).
    exists (new0 ++ new). rewrite H, H0, <- app_assoc. split; [done|].
    by apply Forall_app.
Qed.

Lemma lockState_tryCatch {T} (c0 : Controller)
    (body : Op (option string * Controller) T)
    (handler : Error -> Op (option string * Controller) T)
    (p : option string * Controller) :
  lockState c0 (body p).2 -> (forall e, quietL (handler e)) ->
  lockState c0 (tryCatch body handler p).2.
Proof.
  intros Hb Hh. unfold tryCatch.
  destruct (body p) as [[x|e] p1]; cbn in *; [done|].
  by apply lockState_quietL.
Qed.

(** The [finally] block turns the state of the lock into the discipline. *)
Lemma lockState_finally {T} (c : Controller)
    (body : Op (option string * Controller) T) :
  let c0 := mkController (objects c) (transactions c) (effects c ++ [MutexAcquire]) in
  let finalizer : Op (option string * Controller) unit :=
    (let* nonceLock := getLocal in
     match nonceLock with
     | Some address => lift (effect (NonceLockRelease address))
     | None => ret tt
     end;;
     lift (effect MutexRelease)) in
  lockState c0 (body (None, c0)).2 ->
  exists new,
    effects (withLocal None (tryFinally body finalizer) c0).2 = effects c ++ new
    /\ lockDiscipline new.
Proof.
  intros c0 finalizer Hb. unfold withLocal, tryFinally.
  destruct (body (None, c0)) as [res [l1 c1]]. unfold lockState in Hb.
  cbn in Hb. subst finalizer. run.
  destruct l1 as [address|]; cbn.
  - destruct Hb as (n & mid & Hb & Hq). rewrite Hb.
    exists (MutexAcquire :: NonceLockAcquire address n :: mid
            ++ [NonceLockRelease address; MutexRelease]).
    split; [by rewrite <- !app_assoc|].
    right. by exists address, n, mid.
  - destruct Hb as (new & Hb & Hq). rewrite Hb.
    exists (MutexAcquire :: new ++ [MutexRelease]).
    split; [by rewrite <- !app_assoc|].
    left. constructor; [done|]. apply Forall_app. split; [done|].
    by constructor.
Qed.

(** Every run of [approveTransaction] keeps the discipline of the nonce
    lock, whatever the collaborators answer and however the run ends. *)
Lemma approveTransaction_lockDiscipline (env : Env) (transactionID : string)
    (c : Controller) :
  exists new,
    effects (approveTransaction env transactionID c).2 = effects c ++ new
    /\ lockDiscipline new.
Proof.
  unfold approveTransaction.
  unfold bind at 1. unfold getTransactions at 1.
  unfold bind at 1. unfold effect at 1.
  unfold bind at 1.
  change (objects (mkController (objects c) (transactions c)
                     (effects c ++ [MutexAcquire]))) with (objects c).
  destruct (findIndex (objects c) (transactions c) transactionID)
    as [[index r]|] eqn:Hfind.
  2: { exists [MutexAcquire]. split; [done|]. left. by constructor. }
  unfold bind at 1. unfold deref at 1.
  change (objects (mkController (objects c) (transactions c)
                     (effects c ++ [MutexAcquire]))) with (objects c).
  destruct (TransactionMeta.transaction (objects c !!! r)) as [transaction|].
  2: { exists [MutexAcquire]. split; [done|]. left. by constructor. }
  cbv zeta.
  apply (lockState_finally c).
  apply lockState_tryCatch; [|intros e; repeat quiet_step].
  set (c0 := mkController _ _ _).
  assert (H0 : lockState c0 (None, c0)).
  { exists []. by rewrite app_nil_r. }
  destruct (sign env) as [signer|];
    [|apply lockState_quietL; [repeat quiet_step|done]].
  destruct (negb (truthy (currentChainId env)));
    [apply lockState_quietL; [repeat quiet_step|done]|].
  unfold bind at 1.
  destruct (truthy (Transaction.nonce transaction)).
  { unfold ret at 1.
    apply lockState_quietL;
      [repeat first [apply quiet_signAndPublish | quiet_step]|done]. }
  unfold bind at 1. unfold lift at 1. unfold acquireNonceLock.
  unfold bind at 1. unfold liftCompletion at 1.
  destruct (getNonceLock env (Transaction.from transaction)) as [n|e];
    [|done].
  unfold bind at 1. unfold effect at 1. unfold ret at 1.
  unfold bind at 1. unfold setLocal at 1. unfold ret at 1.
  apply lockState_quietL;
    [repeat first [apply quiet_signAndPublish | quiet_step]|].
  exists n, []. done.
Qed.

(** ** Failure after the nonce lock is taken *)

Section Awaiting.
Context (env : Env) (r : ref) (transactionID : string) (normalized : Transaction.t).
Hypothesis normalized_stable : normalizeTransaction env normalized = normalized.
Hypothesis normalized_valid : validateTransaction env normalized = None.

#[local] Abbreviation awaits := (awaiting env r transactionID normalized).

Lemma awaiting_effect (e : Effect) (s : Controller) :
  awaits s -> awaits (effect e s).2.
Proof. done. Qed.

Lemma awaiting_mutate (f : TransactionMeta.t -> TransactionMeta.t) (s : Controller) :
  (forall m, TransactionMeta.id (f m) = TransactionMeta.id m) ->
  (forall m, TransactionMeta.transaction (f m) = TransactionMeta.transaction m) ->
  (forall m, isFinalState (TransactionMeta.status m) = false ->
             isFinalState (TransactionMeta.status (f m)) = false) ->
  awaits s -> awaits (mutate r f s).2.
Proof.
  intros Hid Htx Hst (Hwf & Hin & m & t & Hm & Hidm & Hfin & Ht & Hn).
  unfold awaiting, wellFormed in *. cbn. rewrite length_alter.
  split_and!; [done..|].
  exists (f m), t. rewrite list_lookup_alter_eq, Hm. cbn.
  rewrite Hid, Htx. split_and!; auto.
Qed.

Lemma awaiting_updateTransaction (s : Controller) :
  awaits s ->
  exists s',
    updateTransaction env r s = (Normal tt, s')
    /\ awaits s' /\ effects s' = effects s
    /\ length (objects s') = length (objects s).
Proof.
  intros (Hwf & Hin & m & t & Hm & Hidm & Hfin & Ht & Hn).
  rewrite updateTransaction_run.
  rewrite (list_lookup_total_correct _ _ _ Hm), Ht. cbv zeta.
  rewrite Hn, normalized_valid.
  eexists. split; [reflexivity|]. cbn. rewrite length_alter.
  split; [|done].
  set (objs := alter _ r (objects s)).
  assert (Hobj : objs !! r
                 = Some (TransactionMeta.with_transaction (Some normalized) m))
    by (subst objs; by rewrite list_lookup_alter_eq, Hm).
  set (txs := match findIndex objs (transactions s) (TransactionMeta.id m) with
              | Some (index, _) => <[index := r]> (transactions s)
              | None => transactions s
              end).
  assert (Htxs : r ∈ txs /\ Forall (fun x => (x < length (objects s))%nat) txs).
  { subst txs. destruct (findIndex _ _ _) as [[index x]|] eqn:Hfind; [|done].
    apply findIndex_Some in Hfind as [Hlookup _]. split.
    - apply list_elem_of_insert. by eapply lookup_lt_Some.
    - apply Forall_forall. intros y [->|Hy]%elem_of_insert_inv.
      + by eapply lookup_lt_Some.
      + unfold wellFormed in Hwf. by eapply Forall_forall in Hwf. }
  destruct Htxs as [Hr Hvalid].
  unfold awaiting, wellFormed. cbn. split_and!.
  - subst objs. rewrite length_alter. by apply trimState_valid.
  - eapply (trimState_keeps_non_final _ _ _ _ normalized); [done|..];
      by rewrite (list_lookup_total_correct _ _ _ Hobj).
  - exists (TransactionMeta.with_transaction (Some normalized) m), normalized.
    split_and!; done.
Qed.

(** [failTransaction] on the record being approved: the failed copy is
    allocated, takes the place of the first record with the id in the state
    array, which is trimmed, and [<id>:finished] is emitted with it. *)
Lemma awaiting_failTransaction (e : Error) (s : Controller) :
  awaits s ->
  exists s' failedMeta j,
    failTransaction env r e s = (Normal tt, s')
    /\ objects s' = objects s ++ [failedMeta]
    /\ TransactionMeta.status failedMeta = failed
    /\ TransactionMeta.error failedMeta = Some e
    /\ TransactionMeta.id failedMeta = transactionID
    /\ (j < length (transactions s))%nat
    /\ transactions s'
       = trimState env (objects s') (<[j := length (objects s)]> (transactions s))
    /\ effects s'
       = effects s ++ [HubEmit (transactionID +:+ ":finished") failedMeta].
Proof.
  intros (Hwf & Hin & m & t & Hm & Hidm & Hfin & Ht & Hn).
  pose proof (list_lookup_total_correct _ _ _ Hm) as Htot.
  destruct (findIndex_is_Some (objects s) _ _ Hin) as [[j r'] Hfind].
  rewrite Htot, Hidm in Hfind.
  unfold failTransaction, emit. run. rewrite updateTransaction_run. cbn.
  rewrite !list_lookup_total_middle by done. cbn.
  rewrite Htot, Ht. cbn. rewrite Hn, normalized_valid.
  rewrite (alter_app_r_alt _ _ _ (length (objects s))) by done.
  rewrite Nat.sub_diag. cbn.
  rewrite Hidm, (findIndex_alloc _ _ _ _ Hwf), Hfind. cbn.
  rewrite list_lookup_total_middle by done.
  eexists _, _, j. split; [reflexivity|]. cbn.
  split_and!; try done.
  apply findIndex_Some in Hfind as [Hj _]. by eapply lookup_lt_Some.
Qed.

(** A collaborator that throws inside [signAndPublish] stops it at once;
    the record is still being approved, and only calls that leave the nonce
    lock alone have been made. *)
Lemma awaiting_signAndPublish_thrown
    (signer : TxData -> string -> Completion string) (txParams : TxData)
    (from finished : string) (e : Error) (s : Controller) :
  awaits s ->
  stepsAfterLock env signer txParams from = Thrown e ->
  exists s' mid,
    signAndPublish env signer r txParams from finished s = (Thrown e, s')
    /\ awaits s' /\ effects s' = effects s ++ mid /\ Forall notNonceLock mid
    /\ length (objects s') = length (objects s).
Proof.
  intros Hs Hsteps. unfold stepsAfterLock in Hsteps.
  unfold signAndPublish, prepareUnsignedEthTx, callSign, publishTransaction.
  destruct (fromTxData env txParams) as [e0|] eqn:Hprepare.
  { injection Hsteps as ->. exists s, []. run.
    rewrite app_nil_r. split_and!; done. }
  unfold bind at 1. unfold ret at 1.
  unfold bind at 1. unfold bind at 1. unfold effect at 1.
  unfold liftCompletion at 1.
  set (s1 := mkController (objects s) (transactions s)
               (effects s ++ [Sign txParams from])).
  assert (H1 : awaits s1) by done.
  destruct (signer txParams from) as [rawTx|e0] eqn:Hsign.
  2: { injection Hsteps as ->. exists s1, [Sign txParams from].
       split_and!; try done. by constructor. }
  unfold bind at 1.
  pose proof (awaiting_mutate (TransactionMeta.with_status signed) s1
                (fun _ => eq_refl) (fun _ => eq_refl) (fun _ _ => eq_refl) H1)
    as H2.
  assert (Hm2 : mutate r (TransactionMeta.with_status signed) s1
                = (Normal tt, (mutate r (TransactionMeta.with_status signed) s1).2))
    by done.
  rewrite Hm2. set (s2 := (mutate r _ s1).2) in *.
  unfold bind at 1.
  destruct (awaiting_updateTransaction s2 H2) as (s3 & -> & H3 & Heff3 & Hlen3).
  unfold bind at 1.
  pose proof (awaiting_mutate (TransactionMeta.with_rawTx (Some rawTx)) s3
                (fun _ => eq_refl) (fun _ => eq_refl) (fun _ H => H) H3) as H4.
  assert (Hm4 : mutate r (TransactionMeta.with_rawTx (Some rawTx)) s3
                = (Normal tt, (mutate r (TransactionMeta.with_rawTx (Some rawTx)) s3).2))
    by done.
  rewrite Hm4. set (s4 := (mutate r _ s3).2) in *.
  unfold bind at 1.
  destruct (awaiting_updateTransaction s4 H4) as (s5 & -> & H5 & Heff5 & Hlen5).
  unfold bind at 1. unfold bind at 1. unfold effect at 1.
  unfold liftCompletion at 1.
  destruct (sendRawTransaction env rawTx) as [hash|e0] eqn:Hsend; [done|].
  injection Hsteps as ->.
  eexists _, [Sign txParams from; SendRawTransaction rawTx].
  split; [reflexivity|]. cbn.
  split_and!.
  - done.
  - rewrite Heff5. subst s4. cbn. rewrite Heff3. subst s2 s1. cbn.
    by rewrite <- app_assoc.
  - by repeat constructor.
  - rewrite Hlen5. subst s4. cbn. rewrite length_alter, Hlen3.
    subst s2 s1. cbn. by rewrite length_alter.
Qed.
End Awaiting.

(** The paths of [approveTransaction] on which the failure handling works.
    Whatever the method does, the nonce lock is either never touched or
    taken once, right after the mutex, and released before the mutex at the
    end of the run.  When the lock has been taken and building, signing or
    publishing the transaction throws, while the state update accepts the
    record's transaction, the method returns normally: a failed copy of the
    record carrying the error is allocated and handed to the state update
    (whose history trim decides whether a final record stays in the array),
    and [<id>:finished] is emitted with the copy before the lock is
    released. *)
Lemma approve_releases_lock_and_marks_failed (env : Env)
    (transactionID : string) (c : Controller) :
  (exists new,
     effects (approveTransaction env transactionID c).2 = effects c ++ new
     /\ lockDiscipline new)
  /\ forall (index : nat) (r : ref) (meta : TransactionMeta.t)
       (transaction : Transaction.t)
       (signer : TxData -> string -> Completion string)
       (nextNonce : N) (e : Error),
       wellFormed c ->
       findIndex (objects c) (transactions c) transactionID = Some (index, r) ->
       objects c !! r = Some meta ->
       TransactionMeta.transaction meta = Some transaction ->
       sign env = Some signer ->
       truthy (currentChainId env) = true ->
       truthy (Transaction.nonce transaction) = false ->
       getNonceLock env (Transaction.from transaction) = Normal nextNonce ->
       let nonceToUse := Some (HexString.of_N nextNonce) in
       let from := Transaction.from transaction in
       let normalized :=
         normalizeTransaction env (stampedTransaction env nonceToUse transaction) in
       normalizeTransaction env normalized = normalized ->
       validateTransaction env normalized = None ->
       stepsAfterLock env signer (stampedTxParams env nonceToUse transaction) from
       = Thrown e ->
       exists (c' : Controller) (failedMeta : TransactionMeta.t) (mid : list Effect),
         approveTransaction env transactionID c = (Normal tt, c')
         /\ TransactionMeta.status failedMeta = failed
         /\ TransactionMeta.error failedMeta = Some e
         /\ TransactionMeta.id failedMeta = transactionID
         /\ objects c' !! length (objects c) = Some failedMeta
         /\ effects c'
            = effects c
              ++ MutexAcquire :: NonceLockAcquire from nextNonce :: mid
              ++ [HubEmit (transactionID +:+ ":finished") failedMeta;
                  NonceLockRelease from; MutexRelease]
         /\ Forall notNonceLock mid.
Proof.
  split; [apply approveTransaction_lockDiscipline|].
  intros index r meta transaction signer nextNonce e Hwf Hfind Hmeta Htx
    Hsign Hchain Hnonce Hlock nonceToUse from normalized Hstable Hvalid Hsteps.
  pose proof (list_lookup_total_correct _ _ _ Hmeta) as Htot.
  pose proof (findIndex_Some _ _ _ _ _ Hfind) as [Hindex Hid].
  rewrite Htot in Hid.
  unfold approveTransaction.
  unfold bind at 1. unfold getTransactions at 1.
  unfold bind at 1. unfold effect at 1.
  unfold bind at 1.
  change (objects (mkController (objects c) (transactions c)
                     (effects c ++ [MutexAcquire]))) with (objects c).
  rewrite Hfind.
  unfold bind at 1. unfold deref at 1.
  change (objects (mkController (objects c) (transactions c)
                     (effects c ++ [MutexAcquire]))) with (objects c).
  rewrite Htot, Htx. cbv zeta.
  rewrite Hsign, Hchain, Hnonce. cbn [negb].
  unfold withLocal, tryFinally, tryCatch.
  unfold bind at 1. unfold bind at 1. unfold lift at 1. unfold acquireNonceLock.
  unfold bind at 1. unfold liftCompletion at 1. rewrite Hlock.
  unfold bind at 1. unfold effect at 1. unfold ret at 1.
  unfold bind at 1. unfold setLocal at 1. unfold ret at 1.
  unfold bind at 1. unfold lift at 1. unfold mutate at 1.
  unfold bind at 1. unfold lift at 1. unfold mutateTransaction at 1. unfold mutate at 1.
  unfold bind at 1. unfold lift at 1. unfold mutateTransaction at 1. unfold mutate at 1.
  unfold lift at 1.
  cbn [objects transactions effects].
  change (if isEIP1559Transaction _ then _ else _)
    with (stampedTxParams env nonceToUse transaction).
  fold from.
  match goal with
  | |- context [signAndPublish _ _ _ _ _ _ ?s] => set (s3 := s)
  end.
  assert (H3 : awaiting env r transactionID normalized s3).
  { unfold awaiting, wellFormed. subst s3. cbn [objects transactions effects].
    rewrite !length_alter. split_and!.
    - exact Hwf.
    - by eapply list_elem_of_lookup_2.
    - eexists _, (stampedTransaction env nonceToUse transaction).
      rewrite !list_lookup_alter_eq, Hmeta. cbn. rewrite Htx. cbn.
      split_and!; done. }
  destruct (awaiting_signAndPublish_thrown env r transactionID normalized
              Hstable Hvalid signer _ from
              (TransactionMeta.id meta +:+ ":finished") e s3 H3 Hsteps)
    as (s4 & mid & -> & H4 & Heff4 & Hmid & Hlen4).
  unfold lift at 1.
  destruct (awaiting_failTransaction env r transactionID normalized
              Hvalid e s4 H4)
    as (s5 & failedMeta & j & -> & Hobj5 & Hst & Herr & Hfid & Hj & Htxs5 & Heff5).
  unfold bind at 1. unfold getLocal at 1.
  unfold bind at 1. unfold lift at 1. unfold effect at 1.
  unfold lift at 1. unfold effect at 1.
  cbn [objects transactions effects].
  eexists _, failedMeta, mid. split; [reflexivity|].
  cbn [objects transactions effects].
  assert (Hlen : length (objects s4) = length (objects c))
    by (rewrite Hlen4; subst s3; cbn; by rewrite !length_alter).
  rewrite <- Hlen.
  split_and!; try done.
  - rewrite Hobj5. by apply list_lookup_middle.
  - rewrite Heff5, Heff4. subst s3. cbn [effects].
    rewrite <- !app_assoc. reflexivity.
Qed.

Lemma approve_releases_lock_and_marks_failed_witness :
  let env := sampleEnv 40 (Some refusingSigner) (Normal (mkAddResult true)) 5000 in
  let c := onePending unapproved 1000 in
  let refused := mkError None "User denied transaction signature" in
  exists (c' : Controller) (failedMeta : TransactionMeta.t) (mid : list Effect),
    approveTransaction env "a" c = (Normal tt, c')
    /\ TransactionMeta.status failedMeta = failed
    /\ TransactionMeta.error failedMeta = Some refused
    /\ objects c' !! 1%nat = Some failedMeta
    /\ effects c'
       = MutexAcquire :: NonceLockAcquire "0xabc" 7 :: mid
         ++ [HubEmit "a:finished" failedMeta;
             NonceLockRelease "0xabc"; MutexRelease].
Proof.
  intros env c refused.
  destruct (proj2 (approve_releases_lock_and_marks_failed env "a" c)
              0%nat 0%nat
              (TransactionMeta.with_transaction (Some pendingTransaction)
                 (sampleMeta "a" unapproved 1000 ""))
              pendingTransaction refusingSigner 7%N refused)
    as (c' & failedMeta & mid & Hrun & Hstatus & Herror & _ & Hobj & Heff & _).
  - repeat constructor.
  - reflexivity.
  - reflexivity.
  - reflexivity.
  - reflexivity.
  - reflexivity.
  - reflexivity.
  - reflexivity.
  - reflexivity.
  - reflexivity.
  - reflexivity.
  - exists c', failedMeta, mid. split_and!; assumption.
Defined.

(** C1 fails on the code: when the state update itself throws after the
    lock has been taken, here because the validator rejects the record's
    transaction, [failTransaction] runs the same state update and throws
    again.  The lock is released, yet [approveTransaction] throws: no
    [<id>:finished] event is emitted and the stored record is left [signed],
    with no error captured -- against the method's own description, by which
    the event is fired after success or failure. *)
Theorem approve_state_update_exception_not_marked :
  let env := sampleEnv 40 (Some sampleSigner) (Normal (mkAddResult true)) 5000 in
  let c := oneSenderless unapproved 1000 in
  let run := approveTransaction env "a" c in
  let txParams := stampedTxParams env (Some "0x7") senderlessTransaction in
  run.1 = Thrown (mkError None "Invalid from address")
  /\ effects run.2
     = [MutexAcquire; NonceLockAcquire "" 7; Sign txParams "";
        NonceLockRelease ""; MutexRelease]
  /\ TransactionMeta.status <$> stored run.2 "a" = Some signed
  /\ TransactionMeta.error <$> stored run.2 "a" = Some None.
Proof. vm_compute. split_and!; reflexivity. Qed.
